(** * res_speech_google: the streaming recognition session

    A shallow embedding of [res-speech-google/res_speech_google.c], the
    Asterisk speech engine that forwards audio to Google Speech over a
    bidirectional gRPC stream.

    The C/C++ code works on a [struct ast_speech] whose [data] field points
    to a heap-allocated [google_speech_t].  Strings are [ast_strdup]'ed
    buffers, the stub, the client context, the channel and the stream are
    objects reached through [void *] fields.  The embedding keeps that
    shape:

    - a pointer is an [option addr] ([None] is [NULL]);
    - the allocations reachable from a session live in a finite map from
      addresses to blocks, so that [ast_free] and [delete] remove a block
      and a block that is never removed stays allocated;
    - every call on the gRPC transport that returned is appended to a
      call log, in order;
    - what the transport or the allocator answers is an input of each
      operation (an oracle), since it is decided outside this file.

    Messages written with [ast_log], [ast_debug] and [ast_verb] have no
    effect on the session and are left out. *)

From stdpp Require Import gmap strings list fin_maps numbers.
From Stdlib Require Import ZArith QArith Qcanon.

Local Open Scope Z_scope.

(** ** Addresses, blocks and pointers *)

Definition addr := positive.

(** What the transport hands back.  [Returns v] is a normal return;
    [Throws] is a C++ exception derived from [std::exception], which every
    operation catches in its own [try]/[catch]. *)
Inductive outcome (A : Type) : Type :=
| Returns (v : A)
| Throws.
Arguments Returns {A} v.
Arguments Throws {A}.

(** The allocations a session can own. *)
Inductive block : Type :=
| Chars (s : string)   (* a NUL-terminated buffer from ast_strdup *)
| StubObj              (* new std::unique_ptr<Speech::StubInterface> *)
| ContextObj           (* new std::shared_ptr<grpc::ClientContext> *)
| ChannelObj           (* new std::shared_ptr<grpc::Channel> *)
| StreamObj.           (* new std::unique_ptr<grpc::ClientReaderWriter<..>> *)

(** ** The protobuf messages of google.cloud.speech.v1 that the code uses *)

Inductive AudioEncoding : Type :=
| ENCODING_UNSPECIFIED
| LINEAR16.

(** [cfg_model] is [None] as long as [set_model] was not called. *)
Record RecognitionConfig : Type := {
  cfg_encoding : AudioEncoding;
  cfg_sample_rate_hertz : Z;
  cfg_language_code : string;
  cfg_model : option string;
  cfg_enable_automatic_punctuation : bool
}.

Record StreamingRecognitionConfig : Type := {
  config : RecognitionConfig;
  interim_results : bool
}.

Inductive StreamingRecognizeRequest : Type :=
| streaming_config (c : StreamingRecognitionConfig)
| audio_content (bytes : list Byte.byte).

(** [confidence] and [stability] are protobuf floats; a float that was not
    set reads as zero.  They are kept as rationals: the code only prints
    [stability] and never reads [confidence]. *)
Record SpeechRecognitionAlternative : Type := {
  transcript : string;
  confidence : Qc
}.

Record StreamingRecognitionResult : Type := {
  alternatives : list SpeechRecognitionAlternative;
  is_final : bool;
  stability : Qc
}.

Record StreamingRecognizeResponse : Type := {
  results : list StreamingRecognitionResult
}.

(** Calls that returned on the transport, oldest first. *)
Inductive grpc_call : Type :=
| CallStreamingRecognize (a : addr)
| CallWrite (a : addr) (req : StreamingRecognizeRequest) (ok : bool)
| CallRead (a : addr) (resp : option StreamingRecognizeResponse)
| CallWritesDone (a : addr) (ok : bool)
| CallFinish (a : addr) (error_code : Z).

(** ** The host's speech object (asterisk/speech.h) *)

Inductive ast_speech_states : Type :=
| AST_SPEECH_STATE_NOT_READY
| AST_SPEECH_STATE_READY
| AST_SPEECH_STATE_WAIT
| AST_SPEECH_STATE_DONE.

(** [struct google_speech_t], field by field. *)
Record google_speech_t : Type := {
  name : option addr;
  speech_stub : option addr;
  context : option addr;
  stream : option addr;
  last_result : option addr;
  service_account_key_path : option addr;
  language_code : option addr;
  sample_rate_hertz : Z;
  model : option addr;
  enable_automatic_punctuation : bool;
  channel_ptr : option addr
}.

(** The part of [struct ast_speech] the engine touches: the engine data
    pointer (the [google_speech_t] is held by value, [None] is [NULL]), the
    state, and the flag [AST_SPEECH_SPOKE] that a change to the WAIT state
    raises. *)
Record ast_speech : Type := {
  data : option google_speech_t;
  state : ast_speech_states;
  spoke : bool
}.

(** [struct ast_speech_result] as [ast_calloc] leaves it, zeroed. *)
Record ast_speech_result : Type := {
  text : option addr;
  score : Z;
  nbest_num : Z;
  grammar : option addr
}.

Record world : Type := {
  heap : gmap addr block;
  speech : ast_speech;
  calls : list grpc_call
}.

(** ** Field updates *)

Definition set_stream (g : google_speech_t) (p : option addr) : google_speech_t :=
  {| name := name g; speech_stub := speech_stub g; context := context g;
     stream := p; last_result := last_result g;
     service_account_key_path := service_account_key_path g;
     language_code := language_code g;
     sample_rate_hertz := sample_rate_hertz g; model := model g;
     enable_automatic_punctuation := enable_automatic_punctuation g;
     channel_ptr := channel_ptr g |}.

Definition set_context (g : google_speech_t) (p : option addr) : google_speech_t :=
  {| name := name g; speech_stub := speech_stub g; context := p;
     stream := stream g; last_result := last_result g;
     service_account_key_path := service_account_key_path g;
     language_code := language_code g;
     sample_rate_hertz := sample_rate_hertz g; model := model g;
     enable_automatic_punctuation := enable_automatic_punctuation g;
     channel_ptr := channel_ptr g |}.

Definition set_speech_stub (g : google_speech_t) (p : option addr) : google_speech_t :=
  {| name := name g; speech_stub := p; context := context g;
     stream := stream g; last_result := last_result g;
     service_account_key_path := service_account_key_path g;
     language_code := language_code g;
     sample_rate_hertz := sample_rate_hertz g; model := model g;
     enable_automatic_punctuation := enable_automatic_punctuation g;
     channel_ptr := channel_ptr g |}.

Definition set_last_result (g : google_speech_t) (p : option addr) : google_speech_t :=
  {| name := name g; speech_stub := speech_stub g; context := context g;
     stream := stream g; last_result := p;
     service_account_key_path := service_account_key_path g;
     language_code := language_code g;
     sample_rate_hertz := sample_rate_hertz g; model := model g;
     enable_automatic_punctuation := enable_automatic_punctuation g;
     channel_ptr := channel_ptr g |}.

Definition set_data (sp : ast_speech) (d : option google_speech_t) : ast_speech :=
  {| data := d; state := state sp; spoke := spoke sp |}.

(** ** Host and allocator primitives *)

(** [ast_speech_change_state] of the host (res_speech.c): the WAIT state
    also raises [AST_SPEECH_SPOKE]; every state is stored. *)
Definition ast_speech_change_state (sp : ast_speech) (st : ast_speech_states) : ast_speech :=
  match st with
  | AST_SPEECH_STATE_WAIT => {| data := data sp; state := st; spoke := true |}
  | _ => {| data := data sp; state := st; spoke := spoke sp |}
  end.

(** [ast_free(p)]: nothing on [NULL], else the block is gone. *)
Definition ast_free (p : option addr) (h : gmap addr block) : gmap addr block :=
  match p with
  | None => h
  | Some a => delete a h
  end.

(** [delete static_cast<T*>(p)] on a non-null pointer. *)
Definition cxx_delete (a : addr) (h : gmap addr block) : gmap addr block :=
  delete a h.

(** [new T(..)]: a block at an address that was not allocated. *)
Definition cxx_new (b : block) (h : gmap addr block) : addr * gmap addr block :=
  let a := fresh (dom h) in (a, <[a := b]> h).

(** The characters a [const char *] sees in a [std::string]: everything
    before the first NUL. *)
Fixpoint c_str (s : string) : string :=
  match s with
  | EmptyString => EmptyString
  | String c r => if Ascii.eqb c Ascii.zero then EmptyString else String c (c_str r)
  end.

(** [ast_strdup(s)]: a fresh copy, or [NULL] when the allocator refuses. *)
Definition ast_strdup (alloc_ok : bool) (s : string) (h : gmap addr block)
  : option addr * gmap addr block :=
  if alloc_ok then
    let a := fresh (dom h) in (Some a, <[a := Chars s]> h)
  else (None, h).

(** Reading the string behind a [char *].  [None] for [NULL] and for a
    pointer that does not point to a live string (where C has no defined
    behaviour). *)
Definition read_str (h : gmap addr block) (p : option addr) : option string :=
  match p with
  | None => None
  | Some a =>
    match h !! a with
    | Some (Chars s) => Some s
    | _ => None
    end
  end.

(** [ast_strlen_zero(p)]: [!p || *p == '\0']. *)
Definition ast_strlen_zero (h : gmap addr block) (p : option addr) : bool :=
  match read_str h p with
  | None => true
  | Some s => bool_decide (s = EmptyString)
  end.

(** ** google_recog_get *)

(** The fixed score every result is given. *)
Definition placeholder_score : Z := 100.

Definition google_recog_get (calloc_ok : bool) (w : world)
  : option ast_speech_result * world :=
  match data (speech w) with
  | None => (None, w)
  | Some g =>
    if ast_strlen_zero (heap w) (last_result g) then (None, w)
    else if negb calloc_ok then (None, w)
    else
      (Some {| text := last_result g; score := placeholder_score;
               nbest_num := 0; grammar := None |},
       {| heap := heap w;
          speech := set_data (speech w) (Some (set_last_result g None));
          calls := calls w |})
  end.

(** ** google_recog_write *)

(** What the outside answers during one [google_recog_write]: the
    stream's [Write], the stream's [Read] ([Returns None] is a [Read] that
    returned false), and whether [ast_strdup] gets memory. *)
Record write_io : Type := {
  wr_Write : outcome bool;
  wr_Read : outcome (option StreamingRecognizeResponse);
  wr_strdup : bool
}.

Definition with_calls (w : world) (c : list grpc_call) : world :=
  {| heap := heap w; speech := speech w; calls := c |}.

(** [audio] stands for the [len] bytes at [data]. *)
Definition google_recog_write (io : write_io) (audio : list Byte.byte) (w : world)
  : Z * world :=
  match data (speech w) with
  | None => (-1, w)
  | Some g =>
    match stream g with
    | None => (-1, w)
    | Some a =>
      let request := audio_content audio in
      match wr_Write io with
      | Throws => (-1, w)
      | Returns false =>
        (-1, {| heap := heap w;
                speech := ast_speech_change_state (speech w) AST_SPEECH_STATE_NOT_READY;
                calls := calls w ++ [CallWrite a request false] |})
      | Returns true =>
        let c1 := calls w ++ [CallWrite a request true] in
        match wr_Read io with
        | Throws => (-1, with_calls w c1)
        | Returns None => (0, with_calls w (c1 ++ [CallRead a None]))
        | Returns (Some response) =>
          let c2 := c1 ++ [CallRead a (Some response)] in
          match results response with
          | [] => (0, with_calls w c2)
          | result :: _ =>
            match alternatives result with
            | [] => (0, with_calls w c2)
            | alt :: _ =>
              let h1 := ast_free (last_result g) (heap w) in
              let '(p, h2) := ast_strdup (wr_strdup io) (c_str (transcript alt)) h1 in
              let sp1 := set_data (speech w) (Some (set_last_result g p)) in
              let sp2 := if is_final result
                         then ast_speech_change_state sp1 AST_SPEECH_STATE_DONE
                         else sp1 in
              (0, {| heap := h2; speech := sp2; calls := c2 |})
            end
          end
        end
      end
    end
  end.

(** ** google_recog_stop *)

Definition google_recog_stop (writes_done : outcome bool) (w : world) : Z * world :=
  match data (speech w) with
  | None => (0, w)
  | Some g =>
    let c :=
      match stream g with
      | None => calls w
      | Some a =>
        match writes_done with
        | Returns ok => calls w ++ [CallWritesDone a ok]
        | Throws => calls w
        end
      end in
    (0, {| heap := heap w;
           speech := ast_speech_change_state (speech w) AST_SPEECH_STATE_NOT_READY;
           calls := c |})
  end.

(** ** google_recog_destroy *)

(** [finish] is what [Finish()] answers: the status code (0 is ok), or an
    exception, in which case the [catch] leaves the stream field as it
    was. *)
Definition google_recog_destroy (finish : outcome Z) (w : world) : Z * world :=
  match data (speech w) with
  | None => (0, w)
  | Some g =>
    let '(h1, c1, g1) :=
      match stream g with
      | None => (heap w, calls w, g)
      | Some a =>
        match finish with
        | Returns code =>
          (cxx_delete a (heap w), calls w ++ [CallFinish a code], set_stream g None)
        | Throws => (heap w, calls w, g)
        end
      end in
    let '(h2, g2) :=
      match context g1 with
      | None => (h1, g1)
      | Some a => (cxx_delete a h1, set_context g1 None)
      end in
    let '(h3, g3) :=
      match speech_stub g2 with
      | None => (h2, g2)
      | Some a => (cxx_delete a h2, set_speech_stub g2 None)
      end in
    let h4 := ast_free (name g3) h3 in
    let h5 := ast_free (last_result g3) h4 in
    let h6 := ast_free (service_account_key_path g3) h5 in
    let h7 := ast_free (language_code g3) h6 in
    (0, {| heap := h7; speech := set_data (speech w) None; calls := c1 |})
  end.

(** ** google_recog_start *)

Record start_io : Type := {
  st_StreamingRecognize : outcome unit;
  st_Write : outcome bool;
  st_Finish : outcome Z
}.

(** The literal the model name is compared with. *)
Definition default_model_sentinel : string := "default".

(** [set_model] is called only under
    [model && model[0] != '\0' && strcmp(model, "default") != 0]. *)
Definition handshake_model (h : gmap addr block) (p : option addr) : option string :=
  match read_str h p with
  | None => None
  | Some m =>
    if bool_decide (m = EmptyString) then None
    else if bool_decide (m = default_model_sentinel) then None
    else Some m
  end.

Definition handshake (g : google_speech_t) (lang : string) (mdl : option string)
  : StreamingRecognizeRequest :=
  streaming_config
    {| config := {| cfg_encoding := LINEAR16;
                    cfg_sample_rate_hertz := sample_rate_hertz g;
                    cfg_language_code := lang;
                    cfg_model := mdl;
                    cfg_enable_automatic_punctuation := enable_automatic_punctuation g |};
       interim_results := true |}.

(** The [catch] of [google_recog_start]: a stream field that is set is
    deleted and cleared, and the call fails. *)
Definition start_catch (w : world) (h : gmap addr block) (g : google_speech_t)
    (c : list grpc_call) : Z * world :=
  let '(h', g') :=
    match stream g with
    | None => (h, g)
    | Some a => (cxx_delete a h, set_stream g None)
    end in
  (-1, {| heap := h'; speech := set_data (speech w) (Some g'); calls := c |}).

(** Building a [std::string] from a null [language_code] throws
    [std::logic_error]; a pointer that is not a live string is treated the
    same way.  When [StreamingRecognize] throws, the stream field still
    holds the old pointer that was just deleted, and the [catch] deletes it
    again; in the map the second removal changes nothing. *)
Definition google_recog_start (io : start_io) (w : world) : Z * world :=
  match data (speech w) with
  | None => (-1, w)
  | Some g =>
    match speech_stub g, context g with
    | Some _, Some _ =>
      let h1 :=
        match stream g with
        | None => heap w
        | Some old => cxx_delete old (heap w)
        end in
      match st_StreamingRecognize io with
      | Throws => start_catch w h1 g (calls w)
      | Returns _ =>
        let '(a, h2) := cxx_new StreamObj h1 in
        let g1 := set_stream g (Some a) in
        let c1 := calls w ++ [CallStreamingRecognize a] in
        match read_str h2 (language_code g1) with
        | None => start_catch w h2 g1 c1
        | Some lang =>
          let request := handshake g1 lang (handshake_model h2 (model g1)) in
          match st_Write io with
          | Throws => start_catch w h2 g1 c1
          | Returns false =>
            let c2 := c1 ++ [CallWrite a request false] in
            match st_Finish io with
            | Throws => start_catch w h2 g1 c2
            | Returns code =>
              (-1, {| heap := cxx_delete a h2;
                      speech := set_data (speech w) (Some (set_stream g1 None));
                      calls := c2 ++ [CallFinish a code] |})
            end
          | Returns true =>
            (0, {| heap := h2;
                   speech := ast_speech_change_state
                               (set_data (speech w) (Some g1)) AST_SPEECH_STATE_READY;
                   calls := c1 ++ [CallWrite a request true] |})
          end
        end
      end
    | _, _ => (-1, w)
    end
  end.

(** ** Grammar, DTMF and settings entry points

    None of them changes anything; only the return value matters. *)

Definition google_recog_load_grammar (w : world) (grammar_name grammar_path : string) : Z :=
  match data (speech w) with None => -1 | Some _ => 0 end.

Definition google_recog_unload_grammar (w : world) (grammar_name : string) : Z :=
  match data (speech w) with None => -1 | Some _ => 0 end.

Definition google_recog_activate_grammar (w : world) (grammar_name : string) : Z :=
  match data (speech w) with None => -1 | Some _ => 0 end.

Definition google_recog_deactivate_grammar (w : world) (grammar_name : string) : Z :=
  match data (speech w) with None => -1 | Some _ => 0 end.

Definition google_recog_dtmf (w : world) (dtmf : string) : Z :=
  match data (speech w) with None => 0 | Some _ => 0 end.

Definition google_recog_change (w : world) (setting value : string) : Z :=
  match data (speech w) with None => -1 | Some _ => 0 end.

Definition google_recog_get_settings (w : world) (setting : string) : Z :=
  match data (speech w) with None => -1 | Some _ => -1 end.

(** [results_type] is the host's [enum ast_speech_results_type], an int. *)
Definition google_recog_change_results_type (w : world) (results_type : Z) : Z :=
  match data (speech w) with None => -1 | Some _ => -1 end.

(** ** Reading a session *)

(** The result slot holds the transcript [t]: [last_result] points to a
    live string that [ast_strlen_zero] does not reject. *)
Definition slot_holds (w : world) (t : string) : Prop :=
  ∃ g, data (speech w) = Some g
       ∧ read_str (heap w) (last_result g) = Some t
       ∧ t ≠ EmptyString.

(** The result slot is empty in the sense of the test in
    [google_recog_get]. *)
Definition slot_empty (w : world) : Prop :=
  ∀ g, data (speech w) = Some g →
       ast_strlen_zero (heap w) (last_result g) = true.

(** A session with an open stream at [a]. *)
Definition streaming_on (w : world) (a : addr) : Prop :=
  ∃ g, data (speech w) = Some g ∧ stream g = Some a.

(** The stream field is null or points to a stream object. *)
Definition stream_valid (h : gmap addr block) (g : google_speech_t) : Prop :=
  ∀ a, stream g = Some a → h !! a = Some StreamObj.

(** The heap in which [google_recog_start] reads the session's strings:
    the old stream, if any, is gone and the new one is there. *)
Definition start_heap (h : gmap addr block) (g : google_speech_t) : gmap addr block :=
  let h1 := match stream g with
            | None => h
            | Some old => cxx_delete old h
            end in
  <[fresh (dom h1) := StreamObj]> h1.

(** The score of a result as a rational, to compare it with a
    confidence. *)
Definition score_as_Qc (r : ast_speech_result) : Qc := Q2Qc (inject_Z (score r)).

(** Consecutive calls of [google_recog_stop], one transport answer per
    call; the list holds the return value and the world after each call. *)
Fixpoint stop_calls (answers : list (outcome bool)) (w : world) : list (Z * world) :=
  match answers with
  | [] => []
  | o :: rest =>
    let r := google_recog_stop o w in
    r :: stop_calls rest (snd r)
  end.

(** ** Sample worlds

    The session that [google_recog_create] builds from the built-in
    defaults (name, language [en-US], model [default], no key path, the
    channel, the stub and the client context), before any stream exists. *)

Definition created_session : google_speech_t :=
  {| name := Some 1%positive;
     speech_stub := Some 5%positive;
     context := Some 6%positive;
     stream := None;
     last_result := None;
     service_account_key_path := None;
     language_code := Some 2%positive;
     sample_rate_hertz := 16000;
     model := Some 3%positive;
     enable_automatic_punctuation := false;
     channel_ptr := Some 4%positive |}.

Definition created_heap : gmap addr block :=
  list_to_map
    [ (1%positive, Chars "google"); (2%positive, Chars "en-US");
      (3%positive, Chars "default"); (4%positive, ChannelObj);
      (5%positive, StubObj); (6%positive, ContextObj) ].

Definition created_world : world :=
  {| heap := created_heap;
     speech := {| data := Some created_session;
                  state := AST_SPEECH_STATE_NOT_READY;
                  spoke := false |};
     calls := [] |}.

(** A speech object whose engine data is null. *)
Definition null_world : world :=
  {| heap := ∅;
     speech := {| data := None; state := AST_SPEECH_STATE_READY; spoke := false |};
     calls := [] |}.

Definition start_ok : start_io :=
  {| st_StreamingRecognize := Returns tt;
     st_Write := Returns true;
     st_Finish := Returns 0 |}.

(** [created_world] after a successful [google_recog_start]. *)
Definition streaming_world : world := snd (google_recog_start start_ok created_world).

(** The reply of the end-to-end scenario: "hello world", final, with
    confidence 0.91. *)
Definition hello_alternative : SpeechRecognitionAlternative :=
  {| transcript := "hello world"; confidence := Q2Qc (91 # 100) |}.

Definition hello_response : StreamingRecognizeResponse :=
  {| results := [ {| alternatives := [hello_alternative];
                     is_final := true;
                     stability := Q2Qc 0 |} ] |}.

Definition hello_io : write_io :=
  {| wr_Write := Returns true;
     wr_Read := Returns (Some hello_response);
     wr_strdup := true |}.

(** [streaming_world] after one audio frame answered by
    [hello_response]. *)
Definition answered_world : world := snd (google_recog_write hello_io [] streaming_world).

(** ** The engine defaults and session creation

    [google_engine] is a global of the module; its strings are
    [ast_strdup]'ed buffers like those of a session, in the same heap.
    The functions below take the global and the heap and give them
    back. *)

(** [struct google_engine_t]. *)
Record google_engine_t : Type := {
  default_language_code : option addr;
  default_service_account_key_path : option addr;
  default_model : option addr;
  default_enable_automatic_punctuation : bool;
  initialized : Z
}.

(** A loaded configuration file as [ast_variable_retrieve] shows it: a
    category and a variable name give the value, [None] for [NULL].  (A
    file that exists but is invalid is outside this model: the host then
    returns a marker that is not a configuration.) *)
Definition ast_config : Type := string → string → option string.

(** What the host answers during one [google_engine_config_load]:
    [ast_config_load] ([None] is [NULL], no such file), the host's
    [ast_true], and whether each [ast_strdup] gets memory. *)
Record config_io : Type := {
  cl_ast_config_load : option ast_config;
  cl_ast_true : string → bool;
  cl_strdup_default_language : bool;
  cl_strdup_default_model : bool;
  cl_strdup_key_path : bool;
  cl_strdup_language : bool;
  cl_strdup_model : bool
}.

(** [ast_strlen_zero(value)] on a value handed out by the host. *)
Definition value_strlen_zero (value : option string) : bool :=
  match value with
  | None => true
  | Some s => bool_decide (s = EmptyString)
  end.

(** The pattern repeated for each string default:
    [if (!ast_strlen_zero(value)) { ast_free(old); old = ast_strdup(value); }]. *)
Definition override_default (alloc_ok : bool) (value : option string)
    (old : option addr) (h : gmap addr block) : option addr * gmap addr block :=
  match value with
  | None => (old, h)
  | Some s =>
    if bool_decide (s = EmptyString) then (old, h)
    else ast_strdup alloc_ok s (ast_free old h)
  end.

(** The previous contents of the global are overwritten without being
    read or freed. *)
Definition google_engine_config_load (io : config_io) (e : google_engine_t)
    (h : gmap addr block) : Z * (google_engine_t * gmap addr block) :=
  let '(lang0, h1) := ast_strdup (cl_strdup_default_language io) "en-US" h in
  let '(model0, h2) := ast_strdup (cl_strdup_default_model io) "default" h1 in
  match cl_ast_config_load io with
  | None =>
    (0, ({| default_language_code := lang0;
            default_service_account_key_path := None;
            default_model := model0;
            default_enable_automatic_punctuation := false;
            initialized := 1 |}, h2))
  | Some cfg =>
    let '(key1, h3) :=
      override_default (cl_strdup_key_path io)
        (cfg "general" "service_account_key_path") None h2 in
    let '(lang1, h4) :=
      override_default (cl_strdup_language io)
        (cfg "general" "language_code") lang0 h3 in
    let '(model1, h5) :=
      override_default (cl_strdup_model io)
        (cfg "general" "model") model0 h4 in
    let punct :=
      match cfg "general" "enable_automatic_punctuation" with
      | None => false
      | Some s => if bool_decide (s = EmptyString) then false else cl_ast_true io s
      end in
    (0, ({| default_language_code := lang1;
            default_service_account_key_path := key1;
            default_model := model1;
            default_enable_automatic_punctuation := punct;
            initialized := 1 |}, h5))
  end.

(** [read_key_file]: the contents of the file, or the empty string when
    it cannot be opened ([file] is [None]). *)
Definition read_key_file (file : option string) : string :=
  match file with
  | None => EmptyString
  | Some contents => contents
  end.

(** What the outside answers during one [google_recog_create]:
    - [cr_config]: the host's answers to the configuration load, used
      when the global is not initialized;
    - [cr_calloc] and the four [cr_strdup_]: whether the struct and each
      string copy get memory;
    - [cr_key_file]: the contents of the key file, [None] when it cannot
      be opened;
    - the three credential calls, [GoogleServiceAccountJWTAccessCredentials],
      [GoogleDefaultCredentials] in the [try] and [GoogleDefaultCredentials]
      in the [catch]: each returns a credential that is null or not (the
      bool), or throws;
    - [cr_CreateChannel]: whether the channel is not null;
    - [cr_NewStub]: [NewStub] and the [new] that stores the stub;
    - [cr_new_context]: [make_shared] and the [new] that stores the
      client context.
    The [new] that stores the channel is outside any [try] and is taken
    to succeed. *)
Record create_io : Type := {
  cr_config : config_io;
  cr_calloc : bool;
  cr_strdup_name : bool;
  cr_strdup_key_path : bool;
  cr_strdup_language : bool;
  cr_strdup_model : bool;
  cr_key_file : option string;
  cr_jwt_credentials : outcome bool;
  cr_default_credentials : outcome bool;
  cr_fallback_credentials : outcome bool;
  cr_CreateChannel : bool;
  cr_NewStub : outcome unit;
  cr_new_context : outcome unit
}.

(** [ast_strdup(p)] of a string that is in the heap; a pointer that is
    not a live string (no defined behaviour in C) gives [NULL]. *)
Definition strdup_from (alloc_ok : bool) (h : gmap addr block) (p : option addr)
  : option addr * gmap addr block :=
  match read_str h p with
  | None => (None, h)
  | Some s => ast_strdup alloc_ok s h
  end.

(** The credential that [google_recog_create] ends up with, as "not
    null": the [try] picks the key file or the default credentials, the
    [catch] tries the default credentials once more. *)
Definition obtain_credentials (io : create_io) (key_path_set : bool) : bool :=
  let attempt :=
    if key_path_set then
      if bool_decide (read_key_file (cr_key_file io) = EmptyString)
      then cr_default_credentials io
      else cr_jwt_credentials io
    else cr_default_credentials io in
  match attempt with
  | Returns creds => creds
  | Throws =>
    match cr_fallback_credentials io with
    | Returns creds => creds
    | Throws => false
    end
  end.

Definition set_channel_ptr (g : google_speech_t) (p : option addr) : google_speech_t :=
  {| name := name g; speech_stub := speech_stub g; context := context g;
     stream := stream g; last_result := last_result g;
     service_account_key_path := service_account_key_path g;
     language_code := language_code g;
     sample_rate_hertz := sample_rate_hertz g; model := model g;
     enable_automatic_punctuation := enable_automatic_punctuation g;
     channel_ptr := p |}.

(** The four [ast_free] calls of the first three failure paths. *)
Definition create_free_strings (g : google_speech_t) (h : gmap addr block)
  : gmap addr block :=
  ast_free (model g)
    (ast_free (language_code g)
       (ast_free (service_account_key_path g)
          (ast_free (name g) h))).

(** A failure path after the struct was allocated: the struct is freed
    and [speech->data] is cleared. *)
Definition create_fail (e : google_engine_t) (w : world) (h : gmap addr block)
  : Z * (google_engine_t * world) :=
  (-1, (e, {| heap := h; speech := set_data (speech w) None; calls := calls w |})).

(** [google_recog_create] from the [ast_calloc] of the struct on, with
    the global [e1] and the heap [h0] as they are once the configuration
    is known to be loaded.  [format] is [None] for a null format, else
    the sample rate that [ast_format_get_sample_rate] gives, as the [int]
    it is stored in. *)
Definition create_session (io : create_io) (format : option Z)
    (e1 : google_engine_t) (h0 : gmap addr block) (w : world)
  : Z * (google_engine_t * world) :=
  if negb (cr_calloc io)
  then (-1, (e1, {| heap := h0; speech := speech w; calls := calls w |}))
  else
    let '(nm, h1) := ast_strdup (cr_strdup_name io) "google" h0 in
    let '(kp, h2) :=
      match default_service_account_key_path e1 with
      | None => (None, h1)
      | Some _ =>
        strdup_from (cr_strdup_key_path io) h1 (default_service_account_key_path e1)
      end in
    let '(lang, h3) :=
      match default_language_code e1 with
      | None => ast_strdup (cr_strdup_language io) "en-US" h2
      | Some _ => strdup_from (cr_strdup_language io) h2 (default_language_code e1)
      end in
    let '(mdl, h4) :=
      match default_model e1 with
      | None => ast_strdup (cr_strdup_model io) "default" h3
      | Some _ => strdup_from (cr_strdup_model io) h3 (default_model e1)
      end in
    let rate0 :=
      match format with
      | None => 16000
      | Some r => if r =? 0 then 16000 else r
      end in
    let rate := if rate0 <=? 0 then 16000 else rate0 in
    let g :=
      {| name := nm; speech_stub := None; context := None; stream := None;
         last_result := None; service_account_key_path := kp;
         language_code := lang; sample_rate_hertz := rate; model := mdl;
         enable_automatic_punctuation := default_enable_automatic_punctuation e1;
         channel_ptr := None |} in
    if negb (obtain_credentials io (negb (ast_strlen_zero h4 kp)))
    then create_fail e1 w (create_free_strings g h4)
    else if negb (cr_CreateChannel io)
    then create_fail e1 w (create_free_strings g h4)
    else
      let '(ch, h5) := cxx_new ChannelObj h4 in
      let g1 := set_channel_ptr g (Some ch) in
      match cr_NewStub io with
      | Throws => create_fail e1 w (create_free_strings g1 (cxx_delete ch h5))
      | Returns _ =>
        let '(sb, h6) := cxx_new StubObj h5 in
        let g2 := set_speech_stub g1 (Some sb) in
        match cr_new_context io with
        | Throws =>
          create_fail e1 w
            (create_free_strings g2 (cxx_delete sb (cxx_delete ch h6)))
        | Returns _ =>
          let '(cx, h7) := cxx_new ContextObj h6 in
          let g3 := set_context g2 (Some cx) in
          match speech_stub g3, context g3 with
          | Some _, Some _ =>
            (0, (e1, {| heap := h7;
                        speech := set_data (speech w) (Some g3);
                        calls := calls w |}))
          | stub', ctx' =>
            let h8 := match stub' with
                      | None => h7
                      | Some a => cxx_delete a h7
                      end in
            let h9 := match ctx' with
                      | None => h8
                      | Some a => cxx_delete a h8
                      end in
            create_fail e1 w
              (ast_free (language_code g3)
                 (ast_free (service_account_key_path g3)
                    (ast_free (name g3) h9)))
          end
        end
      end.

(** The configuration is loaded first when the global is not
    initialized; a load that does not return 0 ends the creation. *)
Definition google_recog_create (io : create_io) (format : option Z)
    (e : google_engine_t) (w : world) : Z * (google_engine_t * world) :=
  if initialized e =? 0 then
    let '(res, (e1, h0)) :=
      google_engine_config_load (cr_config io) e (heap w) in
    if negb (res =? 0)
    then (-1, (e1, {| heap := h0; speech := speech w; calls := calls w |}))
    else create_session io format e1 h0 w
  else create_session io format e (heap w) w.

(** ** Module load and unload *)

Inductive ast_module_load_result : Type :=
| AST_MODULE_LOAD_SUCCESS
| AST_MODULE_LOAD_DECLINE
| AST_MODULE_LOAD_FAILURE.

(** Calls into the host made by [load_module] and [unload_module], with
    what the host answered. *)
Inductive host_call : Type :=
| HostFormatCapAlloc (ok : bool)
| HostFormatCapAppendByType
| HostSpeechRegister (res : Z)
| HostSpeechUnregister (res : Z)
| HostFormatCapDestroy.

Record load_io : Type := {
  ld_config : config_io;
  ld_format_cap_alloc : bool;
  ld_speech_register : Z
}.

Definition load_module (io : load_io) (e : google_engine_t) (h : gmap addr block)
  : ast_module_load_result * (google_engine_t * gmap addr block * list host_call) :=
  let '(res, (e1, h1)) := google_engine_config_load (ld_config io) e h in
  if negb (res =? 0) then (AST_MODULE_LOAD_DECLINE, (e1, h1, []))
  else if negb (ld_format_cap_alloc io)
  then (AST_MODULE_LOAD_FAILURE, (e1, h1, [HostFormatCapAlloc false]))
  else
    let c := [HostFormatCapAlloc true; HostFormatCapAppendByType;
              HostSpeechRegister (ld_speech_register io)] in
    if negb (ld_speech_register io =? 0)
    then (AST_MODULE_LOAD_FAILURE, (e1, h1, c ++ [HostFormatCapDestroy]))
    else (AST_MODULE_LOAD_SUCCESS, (e1, h1, c)).

(** The pointers of the global are freed but not cleared; only
    [initialized] changes. *)
Definition unload_module (unregister : Z) (e : google_engine_t) (h : gmap addr block)
  : Z * (google_engine_t * gmap addr block * list host_call) :=
  let h1 := ast_free (default_service_account_key_path e) h in
  let h2 := ast_free (default_language_code e) h1 in
  let h3 := ast_free (default_model e) h2 in
  (0, ({| default_language_code := default_language_code e;
          default_service_account_key_path := default_service_account_key_path e;
          default_model := default_model e;
          default_enable_automatic_punctuation := default_enable_automatic_punctuation e;
          initialized := 0 |},
       h3, [HostSpeechUnregister unregister; HostFormatCapDestroy])).

(** ** More ways to read a session *)

(** The fields that are set at creation and that no later entry point
    assigns. *)
Definition session_settings (g : google_speech_t)
  : option addr * option addr * option addr * option addr * option addr
    * Z * option addr * bool * option addr :=
  (name g, speech_stub g, context g, service_account_key_path g,
   language_code g, sample_rate_hertz g, model g,
   enable_automatic_punctuation g, channel_ptr g).

(** The addresses a session refers to. *)
Definition session_pointers (g : google_speech_t) : list (option addr) :=
  [name g; speech_stub g; context g; stream g; last_result g;
   service_account_key_path g; language_code g; model g; channel_ptr g].

(** What the configuration file says for a variable of [general]; [None]
    without a file or without the variable. *)
Definition configured (io : config_io) (variable : string) : option string :=
  match cl_ast_config_load io with
  | None => None
  | Some cfg => cfg "general" variable
  end.

(** A configured value when it is there and not empty, else the
    default. *)
Definition or_default (value : option string) (default : string) : string :=
  match value with
  | None => default
  | Some s => if bool_decide (s = EmptyString) then default else s
  end.

(** Every block of [h] is still in [h'], unchanged. *)
Definition keeps (h h' : gmap addr block) : Prop :=
  ∀ a b, h !! a = Some b → h' !! a = Some b.

(** The pointer [p] is null or designates an address that is not
    allocated in [h]. *)
Definition fresh_for (h : gmap addr block) (p : option addr) : Prop :=
  ∀ a, p = Some a → h !! a = None.

(** The global before any load. *)
Definition blank_engine : google_engine_t :=
  {| default_language_code := None;
     default_service_account_key_path := None;
     default_model := None;
     default_enable_automatic_punctuation := false;
     initialized := 0 |}.

Definition blank_world : world :=
  {| heap := ∅;
     speech := {| data := None; state := AST_SPEECH_STATE_NOT_READY; spoke := false |};
     calls := [] |}.

(** A host with no configuration file and memory for everything. *)
Definition no_config : config_io :=
  {| cl_ast_config_load := None;
     cl_ast_true := λ _, false;
     cl_strdup_default_language := true;
     cl_strdup_default_model := true;
     cl_strdup_key_path := true;
     cl_strdup_language := true;
     cl_strdup_model := true |}.

(** A configuration file that sets the four keys of [general]. *)
Definition sample_config : ast_config :=
  λ category variable,
    if bool_decide (category = "general") then
      if bool_decide (variable = "language_code") then Some "es-ES"
      else if bool_decide (variable = "model") then Some "latest_long"
      else if bool_decide (variable = "service_account_key_path") then Some "/etc/key.json"
      else if bool_decide (variable = "enable_automatic_punctuation") then Some "yes"
      else None
    else None.

Definition with_config : config_io :=
  {| cl_ast_config_load := Some sample_config;
     cl_ast_true := λ s, bool_decide (s = "yes");
     cl_strdup_default_language := true;
     cl_strdup_default_model := true;
     cl_strdup_key_path := true;
     cl_strdup_language := true;
     cl_strdup_model := true |}.

Definition create_ok : create_io :=
  {| cr_config := no_config;
     cr_calloc := true;
     cr_strdup_name := true;
     cr_strdup_key_path := true;
     cr_strdup_language := true;
     cr_strdup_model := true;
     cr_key_file := None;
     cr_jwt_credentials := Throws;
     cr_default_credentials := Returns true;
     cr_fallback_credentials := Throws;
     cr_CreateChannel := true;
     cr_NewStub := Returns tt;
     cr_new_context := Returns tt |}.

(** The global and the heap after loading [sample_config], and a speech
    object about to be created in that heap. *)
Definition loaded_engine : google_engine_t :=
  fst (snd (google_engine_config_load with_config blank_engine ∅)).

Definition loaded_world : world :=
  {| heap := snd (snd (google_engine_config_load with_config blank_engine ∅));
     speech := speech blank_world;
     calls := [] |}.

(** * Properties *)

(** ** Shared facts about the result slot *)

Lemma read_str_Some h p t :
  read_str h p = Some t ↔ ∃ a, p = Some a ∧ h !! a = Some (Chars t).
Proof.
  unfold read_str. split.
  - destruct p as [a|]; [|discriminate].
    destruct (h !! a) as [[s| | | |]|] eqn:E; try discriminate.
    intros [= ->]. eauto.
  - intros (a & -> & ->). reflexivity.
Qed.

Lemma strlen_zero_of_text h p t :
  read_str h p = Some t → t ≠ EmptyString → ast_strlen_zero h p = false.
Proof.
  intros Hr Hne. unfold ast_strlen_zero. rewrite Hr.
  apply bool_decide_eq_false. exact Hne.
Qed.

Lemma strlen_zero_null h : ast_strlen_zero h None = true.
Proof. reflexivity. Qed.

(** A poll on a buffered transcript, when the result object is
    allocated. *)
Lemma get_buffered w g t :
  data (speech w) = Some g →
  read_str (heap w) (last_result g) = Some t →
  t ≠ EmptyString →
  google_recog_get true w
  = (Some {| text := last_result g; score := placeholder_score;
             nbest_num := 0; grammar := None |},
     {| heap := heap w;
        speech := set_data (speech w) (Some (set_last_result g None));
        calls := calls w |}).
Proof.
  intros Hd Hr Hne. unfold google_recog_get.
  rewrite Hd, (strlen_zero_of_text _ _ _ Hr Hne). reflexivity.
Qed.

(** A poll on an empty slot. *)
Lemma get_empty ok w : slot_empty w → google_recog_get ok w = (None, w).
Proof.
  intros He. unfold google_recog_get.
  destruct (data (speech w)) as [g|] eqn:Hd; [|reflexivity].
  rewrite (He g Hd). reflexivity.
Qed.

(** A poll that cannot allocate. *)
Lemma get_no_memory w : google_recog_get false w = (None, w).
Proof.
  unfold google_recog_get.
  destruct (data (speech w)) as [g|]; [|reflexivity].
  destruct (ast_strlen_zero _ _); reflexivity.
Qed.

(** Evaluates [slot_holds] on a concrete world. *)
Ltac eval_slot_holds :=
  eexists; split; [vm_compute; reflexivity|];
  split; [vm_compute; reflexivity|discriminate].

(** ** C1 *)

(** C1. When the slot holds a transcript [t] (and the result object can
    be allocated), [google_recog_get] returns a result whose text is [t],
    leaves the slot empty and touches nothing else, so that the next poll
    returns no result whatever the allocator does; when the slot is empty
    the poll returns no result and the world is the same. *)
Theorem google_recog_get_transfers_once :
  (∀ w t, slot_holds w t →
     ∃ r w',
       google_recog_get true w = (Some r, w')
       ∧ read_str (heap w') (text r) = Some t
       ∧ heap w' = heap w
       ∧ state (speech w') = state (speech w)
       ∧ calls w' = calls w
       ∧ (∃ g, data (speech w) = Some g
               ∧ data (speech w') = Some (set_last_result g None))
       ∧ slot_empty w'
       ∧ ∀ ok, google_recog_get ok w' = (None, w'))
  ∧ (∀ w ok, slot_empty w → google_recog_get ok w = (None, w)).
Proof.
  split.
  - intros w t (g & Hd & Hr & Hne).
    eexists _, _. split; [exact (get_buffered w g t Hd Hr Hne)|].
    assert (He : slot_empty
                   {| heap := heap w;
                      speech := set_data (speech w) (Some (set_last_result g None));
                      calls := calls w |}).
    { intros g' [= <-]. reflexivity. }
    cbn. split; [exact Hr|]. do 3 (split; [reflexivity|]).
    split; [exists g; split; [exact Hd|reflexivity]|].
    split; [exact He|]. intros ok. reflexivity.
  - intros w ok He. apply get_empty, He.
Qed.

Lemma google_recog_get_transfers_once_witness :
  (slot_holds answered_world "hello world"
   ∧ ∃ r w',
       google_recog_get true answered_world = (Some r, w')
       ∧ read_str (heap w') (text r) = Some "hello world"
       ∧ ∀ ok, google_recog_get ok w' = (None, w'))
  ∧ (slot_empty streaming_world
     ∧ google_recog_get true streaming_world = (None, streaming_world)).
Proof.
  assert (Hs : slot_holds answered_world "hello world") by eval_slot_holds.
  split.
  - split; [exact Hs|].
    destruct (proj1 google_recog_get_transfers_once answered_world "hello world" Hs)
      as (r & w' & Hg & Ht & _ & _ & _ & _ & _ & Hn).
    exists r, w'. auto.
  - assert (He : slot_empty streaming_world).
    { intros g Hg. vm_compute in Hg. injection Hg as <-. reflexivity. }
    split; [exact He|].
    exact (proj2 google_recog_get_transfers_once streaming_world true He).
Defined.

(** ** C9 *)

(** C9. With a transcript [t] in the slot, a poll whose result object
    cannot be allocated returns no result and gives back the very same
    world; the transcript is still in the slot and a later poll that can
    allocate returns it. *)
Theorem google_recog_get_alloc_failure_keeps_slot :
  ∀ w t, slot_holds w t →
    ∃ w1,
      google_recog_get false w = (None, w1)
      ∧ w1 = w
      ∧ slot_holds w1 t
      ∧ ∃ r w2,
          google_recog_get true w1 = (Some r, w2)
          ∧ read_str (heap w2) (text r) = Some t.
Proof.
  intros w t Hs. exists w.
  split; [apply get_no_memory|]. split; [reflexivity|]. split; [exact Hs|].
  destruct Hs as (g & Hd & Hr & Hne).
  eexists _, _. split; [exact (get_buffered w g t Hd Hr Hne)|exact Hr].
Qed.

Lemma google_recog_get_alloc_failure_keeps_slot_witness :
  slot_holds answered_world "hello world"
  ∧ ∃ w1,
      google_recog_get false answered_world = (None, w1)
      ∧ w1 = answered_world
      ∧ slot_holds w1 "hello world"
      ∧ ∃ r w2,
          google_recog_get true w1 = (Some r, w2)
          ∧ read_str (heap w2) (text r) = Some "hello world".
Proof.
  assert (Hs : slot_holds answered_world "hello world") by eval_slot_holds.
  split; [exact Hs|].
  exact (google_recog_get_alloc_failure_keeps_slot answered_world "hello world" Hs).
Defined.

(** ** C3 *)

(** C3, as stated, fails: the remote side answers an audio frame with the
    alternative "hello world" carrying confidence 91/100; the poll that
    follows returns that transcript with score 100, which is neither the
    confidence nor the confidence as a percentage. *)
Lemma score_ignores_upstream_confidence :
  google_recog_write hello_io [] streaming_world = (0, answered_world)
  ∧ wr_Read hello_io
    = Returns (Some {| results := [ {| alternatives := [hello_alternative];
                                       is_final := true;
                                       stability := Q2Qc 0 |} ] |})
  ∧ confidence hello_alternative = Q2Qc (91 # 100)
  ∧ confidence hello_alternative ≠ Q2Qc 0
  ∧ ∃ r w',
      google_recog_get true answered_world = (Some r, w')
      ∧ read_str (heap w') (text r) = Some (transcript hello_alternative)
      ∧ score r = 100
      ∧ score_as_Qc r ≠ confidence hello_alternative
      ∧ score_as_Qc r ≠ (Q2Qc 100 * confidence hello_alternative)%Qc.
Proof.
  split; [vm_compute; reflexivity|].
  split; [reflexivity|]. split; [reflexivity|].
  split; [intros H; apply (f_equal this) in H; vm_compute in H; discriminate|].
  eexists _, _. split; [vm_compute; reflexivity|].
  split; [vm_compute; reflexivity|]. split; [reflexivity|].
  split; intros H; apply (f_equal this) in H; vm_compute in H; discriminate.
Qed.

(** C3, amended. Every result that [google_recog_get] returns carries the
    fixed placeholder score 100, whatever the upstream alternative
    carried: the score does not depend on the world at all. *)
Theorem google_recog_get_score_is_placeholder :
  ∀ ok w r w', google_recog_get ok w = (Some r, w') → score r = 100.
Proof.
  intros ok w r w'. unfold google_recog_get.
  destruct (data (speech w)) as [g|]; [|discriminate].
  destruct (ast_strlen_zero _ _); [discriminate|].
  destruct (negb ok); [discriminate|].
  intros [= <- _]. reflexivity.
Qed.

Lemma google_recog_get_score_is_placeholder_witness :
  ∃ r w', google_recog_get true answered_world = (Some r, w') ∧ score r = 100.
Proof.
  eexists _, _.
  assert (H : google_recog_get true answered_world
              = (Some {| text := Some 8%positive; score := placeholder_score;
                         nbest_num := 0; grammar := None |},
                 snd (google_recog_get true answered_world)))
    by (vm_compute; reflexivity).
  split; [exact H|].
  exact (google_recog_get_score_is_placeholder true answered_world _ _ H).
Defined.

(** ** C7 *)

(** C7, as stated, fails for [google_recog_change]: on a session with
    valid data it returns 0, the host's success value, not -1. *)
Lemma google_recog_change_reports_success :
  is_Some (data (speech streaming_world))
  ∧ google_recog_change streaming_world "language_code" "fr-FR" = 0
  ∧ google_recog_change streaming_world "language_code" "fr-FR" ≠ -1.
Proof.
  split; [eexists; vm_compute; reflexivity|].
  split; [vm_compute; reflexivity|]. vm_compute. discriminate.
Qed.

(** C7, amended. On a session with valid data, [google_recog_get_settings]
    and [google_recog_change_results_type] return the failure value -1,
    and [google_recog_change] returns 0. *)
Theorem settings_calls_results :
  ∀ w, is_Some (data (speech w)) →
    (∀ setting value, google_recog_change w setting value = 0)
    ∧ (∀ setting, google_recog_get_settings w setting = -1)
    ∧ (∀ results_type, google_recog_change_results_type w results_type = -1).
Proof.
  intros w [g Hd].
  unfold google_recog_change, google_recog_get_settings,
    google_recog_change_results_type.
  rewrite Hd. repeat split.
Qed.

Lemma settings_calls_results_witness :
  is_Some (data (speech streaming_world))
  ∧ google_recog_change streaming_world "model" "latest_long" = 0
  ∧ google_recog_get_settings streaming_world "model" = -1
  ∧ google_recog_change_results_type streaming_world 1 = -1.
Proof.
  assert (Hd : is_Some (data (speech streaming_world)))
    by (eexists; vm_compute; reflexivity).
  split; [exact Hd|].
  destruct (settings_calls_results streaming_world Hd) as (Hc & Hg & Ht).
  split; [apply Hc|]. split; [apply Hg|apply Ht].
Defined.

(** ** C10 *)

(** C10. When the engine data pointer is null, every entry point returns
    at once and leaves the world as it is: destroy, stop and dtmf return
    0; write, start, the four grammar calls and the three settings calls
    return -1; the poll returns no result. *)
Theorem null_data_is_never_dereferenced :
  ∀ w, data (speech w) = None →
    (∀ finish, google_recog_destroy finish w = (0, w))
    ∧ (∀ writes_done, google_recog_stop writes_done w = (0, w))
    ∧ (∀ dtmf, google_recog_dtmf w dtmf = 0)
    ∧ (∀ io audio, google_recog_write io audio w = (-1, w))
    ∧ (∀ io, google_recog_start io w = (-1, w))
    ∧ (∀ n p, google_recog_load_grammar w n p = -1)
    ∧ (∀ n, google_recog_unload_grammar w n = -1)
    ∧ (∀ n, google_recog_activate_grammar w n = -1)
    ∧ (∀ n, google_recog_deactivate_grammar w n = -1)
    ∧ (∀ n v, google_recog_change w n v = -1)
    ∧ (∀ n, google_recog_get_settings w n = -1)
    ∧ (∀ t, google_recog_change_results_type w t = -1)
    ∧ (∀ ok, google_recog_get ok w = (None, w)).
Proof.
  intros w Hd.
  unfold google_recog_destroy, google_recog_stop, google_recog_dtmf,
    google_recog_write, google_recog_start, google_recog_load_grammar,
    google_recog_unload_grammar, google_recog_activate_grammar,
    google_recog_deactivate_grammar, google_recog_change,
    google_recog_get_settings, google_recog_change_results_type,
    google_recog_get.
  rewrite Hd. repeat split.
Qed.

Lemma null_data_is_never_dereferenced_witness :
  data (speech null_world) = None
  ∧ google_recog_destroy Throws null_world = (0, null_world)
  ∧ google_recog_stop (Returns false) null_world = (0, null_world)
  ∧ google_recog_write hello_io [] null_world = (-1, null_world)
  ∧ google_recog_get true null_world = (None, null_world).
Proof.
  split; [reflexivity|].
  destruct (null_data_is_never_dereferenced null_world eq_refl)
    as (Hdes & Hstop & _ & Hwr & _ & _ & _ & _ & _ & _ & _ & _ & Hget).
  split; [apply Hdes|]. split; [apply Hstop|]. split; [apply Hwr|apply Hget].
Defined.

(** ** C2 *)

(** C2. On a session with an open stream, a [google_recog_write] whose
    [Write] returns false returns -1 and leaves the speech object in the
    NOT_READY state; one whose [Write] succeeds and whose [Read] reports
    the end of the stream returns 0 with the heap and the speech object
    (result slot and state included) as they were: only the two transport
    calls are added to the log. *)
Theorem google_recog_write_failure_and_stream_end :
  ∀ io audio w a, streaming_on w a →
    (wr_Write io = Returns false →
       ∃ w', google_recog_write io audio w = (-1, w')
             ∧ state (speech w') = AST_SPEECH_STATE_NOT_READY
             ∧ state (speech w') ≠ AST_SPEECH_STATE_READY
             ∧ data (speech w') = data (speech w)
             ∧ heap w' = heap w)
    ∧ (wr_Write io = Returns true → wr_Read io = Returns None →
       ∃ w', google_recog_write io audio w = (0, w')
             ∧ heap w' = heap w
             ∧ speech w' = speech w
             ∧ calls w' = calls w ++ [CallWrite a (audio_content audio) true;
                                      CallRead a None]).
Proof.
  intros io audio w a (g & Hd & Hs). split.
  - intros Hw. unfold google_recog_write. rewrite Hd, Hs, Hw.
    eexists. split; [reflexivity|]. cbn.
    split; [reflexivity|]. split; [discriminate|].
    split; [congruence|reflexivity].
  - intros Hw Hr. unfold google_recog_write. rewrite Hd, Hs, Hw, Hr.
    eexists. split; [reflexivity|]. cbn.
    rewrite <- app_assoc. split; [reflexivity|]. split; reflexivity.
Qed.

Lemma google_recog_write_failure_and_stream_end_witness :
  streaming_on streaming_world 7%positive
  ∧ (∃ w', google_recog_write
             {| wr_Write := Returns false; wr_Read := Throws; wr_strdup := true |}
             [] streaming_world = (-1, w')
           ∧ state (speech w') = AST_SPEECH_STATE_NOT_READY)
  ∧ (∃ w', google_recog_write
             {| wr_Write := Returns true; wr_Read := Returns None; wr_strdup := true |}
             [] streaming_world = (0, w')
           ∧ speech w' = speech streaming_world).
Proof.
  assert (Hon : streaming_on streaming_world 7%positive)
    by (eexists; split; vm_compute; reflexivity).
  split; [exact Hon|]. split.
  - destruct (proj1 (google_recog_write_failure_and_stream_end
                       {| wr_Write := Returns false; wr_Read := Throws;
                          wr_strdup := true |}
                       [] streaming_world 7%positive Hon) eq_refl)
      as (w' & Hw & Hst & _).
    exists w'. split; assumption.
  - destruct (proj2 (google_recog_write_failure_and_stream_end
                       {| wr_Write := Returns true; wr_Read := Returns None;
                          wr_strdup := true |}
                       [] streaming_world 7%positive Hon)
                eq_refl eq_refl)
      as (w' & Hw & _ & Hsp & _).
    exists w'. split; assumption.
Defined.

(** ** C8 *)

(** C8. A [google_recog_write] whose [Write] succeeds and whose [Read]
    delivers a batch with no result entry, or whose first result entry has
    no alternative, returns 0 and leaves the heap and the speech object
    (result slot and state included) as they were. *)
Theorem google_recog_write_empty_batch :
  ∀ io audio w a response, streaming_on w a →
    wr_Write io = Returns true →
    wr_Read io = Returns (Some response) →
    (results response = []
     ∨ ∃ result rest, results response = result :: rest
                      ∧ alternatives result = []) →
    ∃ w', google_recog_write io audio w = (0, w')
          ∧ heap w' = heap w
          ∧ speech w' = speech w.
Proof.
  intros io audio w a response (g & Hd & Hs) Hw Hr Hbatch.
  unfold google_recog_write. rewrite Hd, Hs, Hw, Hr.
  destruct Hbatch as [-> | (result & rest & -> & ->)];
    (eexists; split; [reflexivity|]; cbn; split; reflexivity).
Qed.

Lemma google_recog_write_empty_batch_witness :
  streaming_on answered_world 7%positive
  ∧ (∃ w', google_recog_write
             {| wr_Write := Returns true;
                wr_Read := Returns (Some {| results := [] |});
                wr_strdup := true |}
             [] answered_world = (0, w')
           ∧ heap w' = heap answered_world ∧ speech w' = speech answered_world)
  ∧ (∃ w', google_recog_write
             {| wr_Write := Returns true;
                wr_Read := Returns (Some {| results :=
                             [ {| alternatives := []; is_final := true;
                                  stability := Q2Qc 0 |} ] |});
                wr_strdup := true |}
             [] answered_world = (0, w')
           ∧ heap w' = heap answered_world ∧ speech w' = speech answered_world).
Proof.
  assert (Hon : streaming_on answered_world 7%positive)
    by (eexists; split; vm_compute; reflexivity).
  split; [exact Hon|]. split.
  - apply (google_recog_write_empty_batch
             {| wr_Write := Returns true;
                wr_Read := Returns (Some {| results := [] |});
                wr_strdup := true |}
             [] answered_world 7%positive
             {| results := [] |} Hon eq_refl eq_refl).
    left. reflexivity.
  - apply (google_recog_write_empty_batch
             {| wr_Write := Returns true;
                wr_Read := Returns (Some {| results :=
                             [ {| alternatives := []; is_final := true;
                                  stability := Q2Qc 0 |} ] |});
                wr_strdup := true |}
             [] answered_world 7%positive
             {| results := [ {| alternatives := []; is_final := true;
                                stability := Q2Qc 0 |} ] |} Hon eq_refl eq_refl).
    right. eexists _, _. split; reflexivity.
Defined.

(** ** C6 *)

Lemma stop_keeps_data o w :
  data (speech (snd (google_recog_stop o w))) = data (speech w).
Proof.
  unfold google_recog_stop.
  destruct (data (speech w)) as [g|] eqn:Hd; cbn; congruence.
Qed.

Lemma stop_returns_zero o w : fst (google_recog_stop o w) = 0.
Proof.
  unfold google_recog_stop. destruct (data (speech w)); reflexivity.
Qed.

Lemma stop_leaves_streaming_state o w :
  is_Some (data (speech w)) →
  state (speech (snd (google_recog_stop o w))) = AST_SPEECH_STATE_NOT_READY.
Proof.
  intros [g Hd]. unfold google_recog_stop. rewrite Hd. reflexivity.
Qed.

(** C6. Whatever the number of consecutive [google_recog_stop] calls and
    whatever [WritesDone] answers at each of them (true, false, or an
    exception), with or without a stream, every call returns 0; and on a
    session (non-null engine data) the speech object is in the NOT_READY
    state after every one of the calls. *)
Theorem google_recog_stop_always_succeeds :
  ∀ answers w,
    Forall (λ r, fst r = 0) (stop_calls answers w)
    ∧ length (stop_calls answers w) = length answers
    ∧ (is_Some (data (speech w)) →
       Forall (λ r, state (speech (snd r)) = AST_SPEECH_STATE_NOT_READY
                    ∧ state (speech (snd r)) ≠ AST_SPEECH_STATE_READY)
              (stop_calls answers w)).
Proof.
  induction answers as [|o rest IH]; intros w; cbn.
  - split; [constructor|]. split; [reflexivity|]. intros _. constructor.
  - destruct (IH (snd (google_recog_stop o w))) as (IHret & IHlen & IHst).
    split; [constructor; [apply stop_returns_zero|exact IHret]|].
    split; [f_equal; exact IHlen|].
    intros Hd. constructor.
    + rewrite (stop_leaves_streaming_state o w Hd). split; [reflexivity|discriminate].
    + apply IHst. rewrite stop_keeps_data. exact Hd.
Qed.

Lemma google_recog_stop_always_succeeds_witness :
  is_Some (data (speech streaming_world))
  ∧ Forall (λ r, state (speech (snd r)) = AST_SPEECH_STATE_NOT_READY
                 ∧ state (speech (snd r)) ≠ AST_SPEECH_STATE_READY)
           (stop_calls [Returns false; Throws; Returns true] streaming_world).
Proof.
  assert (Hd : is_Some (data (speech streaming_world)))
    by (eexists; vm_compute; reflexivity).
  split; [exact Hd|].
  exact (proj2 (proj2 (google_recog_stop_always_succeeds
                         [Returns false; Throws; Returns true] streaming_world)) Hd).
Defined.

(** ** C5 *)

Lemma read_str_insert_stream h a p t :
  read_str (<[a := StreamObj]> h) p = Some t → read_str h p = Some t.
Proof.
  rewrite !read_str_Some. intros (b & -> & Hl). exists b. split; [reflexivity|].
  destruct (decide (a = b)) as [->|Hne].
  - rewrite lookup_insert_eq in Hl. discriminate.
  - rewrite lookup_insert_ne in Hl by exact Hne. exact Hl.
Qed.

Lemma read_str_delete h a p t :
  read_str (delete a h) p = Some t → read_str h p = Some t.
Proof.
  rewrite !read_str_Some. intros (b & -> & Hl). exists b. split; [reflexivity|].
  destruct (decide (a = b)) as [->|Hne].
  - rewrite lookup_delete_eq in Hl. discriminate.
  - rewrite lookup_delete_ne in Hl by exact Hne. exact Hl.
Qed.

Lemma read_str_fresh_stream h p t :
  read_str h p = Some t → read_str (<[fresh (dom h) := StreamObj]> h) p = Some t.
Proof.
  rewrite !read_str_Some. intros (b & -> & Hl). exists b. split; [reflexivity|].
  rewrite lookup_insert_ne; [exact Hl|].
  intros Heq. apply (is_fresh (dom h)). rewrite Heq.
  apply elem_of_dom. eauto.
Qed.

Lemma read_str_delete_stream h old p t :
  h !! old = Some StreamObj →
  read_str h p = Some t → read_str (delete old h) p = Some t.
Proof.
  intros Hold. rewrite !read_str_Some. intros (b & -> & Hl).
  exists b. split; [reflexivity|].
  rewrite lookup_delete_ne; [exact Hl|]. intros ->. congruence.
Qed.

Lemma read_str_start_heap h g p :
  stream_valid h g → read_str (start_heap h g) p = read_str h p.
Proof.
  intros Hv. unfold start_heap, cxx_delete.
  destruct (read_str h p) as [t|] eqn:Hr.
  - apply read_str_fresh_stream.
    destruct (stream g) as [old|] eqn:Hs; [|exact Hr].
    apply read_str_delete_stream; [apply Hv; exact Hs|exact Hr].
  - destruct (read_str (<[_ := StreamObj]> _) p) as [t|] eqn:Hr'; [|reflexivity].
    apply read_str_insert_stream in Hr'.
    destruct (stream g) as [old|].
    + apply read_str_delete in Hr'. congruence.
    + congruence.
Qed.

Lemma handshake_model_Some h p m :
  handshake_model h p = Some m
  ↔ read_str h p = Some m ∧ m ≠ EmptyString ∧ m ≠ "default".
Proof.
  unfold handshake_model, default_model_sentinel.
  destruct (read_str h p) as [s|]; [|split; [discriminate|intros [? _]; discriminate]].
  repeat case_bool_decide; split.
  all: try discriminate.
  all: try (intros ([= ->] & H1 & H2); congruence).
  intros [= ->]. auto.
Qed.

(** C5. When [google_recog_start] returns 0 on a session (whose stream
    field was null or a stream), the calls it added to the transport log
    are the opening of a new stream followed by exactly one [Write], which
    succeeded and carries the configuration frame: LINEAR16, the session's
    sample rate, language code and punctuation flag, interim results
    enabled, and a model field that is set to [m] exactly when the
    session's model reads [m], non-empty and different from "default".
    The session then points to the new stream. *)
Theorem google_recog_start_sends_one_config_frame :
  ∀ io w w' g,
    data (speech w) = Some g →
    stream_valid (heap w) g →
    google_recog_start io w = (0, w') →
    ∃ a lang mdl,
      read_str (heap w) (language_code g) = Some lang
      ∧ (∀ m, mdl = Some m
              ↔ read_str (heap w) (model g) = Some m
                ∧ m ≠ EmptyString ∧ m ≠ "default")
      ∧ data (speech w') = Some (set_stream g (Some a))
      ∧ heap w' !! a = Some StreamObj
      ∧ calls w'
        = calls w
          ++ [ CallStreamingRecognize a;
               CallWrite a
                 (streaming_config
                    {| config :=
                         {| cfg_encoding := LINEAR16;
                            cfg_sample_rate_hertz := sample_rate_hertz g;
                            cfg_language_code := lang;
                            cfg_model := mdl;
                            cfg_enable_automatic_punctuation :=
                              enable_automatic_punctuation g |};
                       interim_results := true |})
                 true ].
Proof.
  intros io w w' g Hd Hv. unfold google_recog_start. rewrite Hd.
  destruct (speech_stub g) as [stub|]; [|discriminate].
  destruct (context g) as [ctx|]; [|discriminate].
  unfold start_catch.
  destruct (st_StreamingRecognize io) as [[]|];
    [|destruct (stream g); discriminate].
  unfold cxx_new. cbn -[fresh].
  pose proof (read_str_start_heap (heap w) g) as Hread.
  unfold start_heap in Hread.
  set (h1 := match stream g with
             | None => heap w
             | Some old => cxx_delete old (heap w)
             end) in *.
  rewrite (Hread (language_code g) Hv).
  destruct (read_str (heap w) (language_code g)) as [lang|] eqn:Hlang;
    [|discriminate].
  destruct (st_Write io) as [[|]|]; [|destruct (st_Finish io); discriminate|discriminate].
  intros [= <-]. cbn -[fresh].
  exists (fresh (dom h1)), lang, (handshake_model (<[fresh (dom h1) := StreamObj]> h1) (model g)).
  split; [reflexivity|].
  split.
  { intros m. rewrite handshake_model_Some, (Hread (model g) Hv). reflexivity. }
  split; [reflexivity|].
  split; [apply lookup_insert_eq|].
  rewrite <- app_assoc. reflexivity.
Qed.

Lemma google_recog_start_sends_one_config_frame_witness :
  data (speech created_world) = Some created_session
  ∧ stream_valid (heap created_world) created_session
  ∧ google_recog_start start_ok created_world = (0, streaming_world)
  ∧ ∃ a lang mdl,
      read_str (heap created_world) (language_code created_session) = Some lang
      ∧ data (speech streaming_world) = Some (set_stream created_session (Some a))
      ∧ calls streaming_world
        = calls created_world
          ++ [ CallStreamingRecognize a;
               CallWrite a
                 (streaming_config
                    {| config :=
                         {| cfg_encoding := LINEAR16;
                            cfg_sample_rate_hertz := sample_rate_hertz created_session;
                            cfg_language_code := lang;
                            cfg_model := mdl;
                            cfg_enable_automatic_punctuation :=
                              enable_automatic_punctuation created_session |};
                       interim_results := true |})
                 true ].
Proof.
  assert (Hv : stream_valid (heap created_world) created_session)
    by (intros a Ha; discriminate Ha).
  assert (Hs : google_recog_start start_ok created_world = (0, streaming_world))
    by (vm_compute; reflexivity).
  split; [reflexivity|]. split; [exact Hv|]. split; [exact Hs|].
  destruct (google_recog_start_sends_one_config_frame
              start_ok created_world streaming_world created_session
              eq_refl Hv Hs)
    as (a & lang & mdl & Hl & _ & Hdata & _ & Hc).
  exists a, lang, mdl. split; [exact Hl|]. split; [exact Hdata|exact Hc].
Defined.

(** ** C4 *)

Section Destroy.
Variables (finish : outcome Z) (w : world) (g : google_speech_t).
Hypothesis Hdata : data (speech w) = Some g.

(** A block that none of the pointers handed to [delete] or [ast_free]
    in [google_recog_destroy] designates is still allocated afterwards. *)
Lemma destroy_keeps_block a b :
  heap w !! a = Some b →
  stream g ≠ Some a → context g ≠ Some a → speech_stub g ≠ Some a →
  name g ≠ Some a → last_result g ≠ Some a →
  service_account_key_path g ≠ Some a → language_code g ≠ Some a →
  heap (snd (google_recog_destroy finish w)) !! a = Some b.
Proof.
  intros Hb Hst Hctx Hstub Hname Hlast Hkey Hlang.
  unfold google_recog_destroy, ast_free, cxx_delete. rewrite Hdata.
  clear Hdata.
  destruct g as [n stub ctx st lr kp lc rate mdl punct ch]; cbn in *.
  destruct st as [s|], finish as [code|], ctx as [c|], stub as [sb|],
    n as [n|], lr as [l|], kp as [k|], lc as [lg|]; cbn;
    rewrite ?lookup_delete_ne by congruence; exact Hb.
Qed.

(** The strings and objects that [google_recog_destroy] does release. *)
Lemma destroy_releases a :
  (context g = Some a ∨ speech_stub g = Some a ∨ name g = Some a
   ∨ last_result g = Some a ∨ service_account_key_path g = Some a
   ∨ language_code g = Some a
   ∨ (stream g = Some a ∧ ∃ code, finish = Returns code)) →
  heap (snd (google_recog_destroy finish w)) !! a = None.
Proof.
  intros Hp.
  unfold google_recog_destroy, ast_free, cxx_delete. rewrite Hdata.
  clear Hdata.
  destruct g as [n stub ctx st lr kp lc rate mdl punct ch]; cbn in *.
  assert (Hdel : ∀ (h : gmap addr block) x,
             h !! a = None → delete x h !! a = None).
  { intros h x Hn. rewrite lookup_delete. case_decide; [reflexivity|exact Hn]. }
  destruct Hp as [->|[->|[->|[->|[->|[->|[-> [code ->]]]]]]]]; cbn;
    repeat match goal with
           | |- context [match ?o with Some _ => _ | None => _ end] =>
             is_var o; destruct o; cbn
           | |- context [match ?o with Returns _ => _ | Throws => _ end] =>
             is_var o; destruct o; cbn
           end;
    repeat first [ apply lookup_delete_eq | apply Hdel ].
Qed.

(** [google_recog_destroy] returns 0 and clears the engine data. *)
Lemma destroy_clears_data :
  fst (google_recog_destroy finish w) = 0
  ∧ data (speech (snd (google_recog_destroy finish w))) = None.
Proof.
  unfold google_recog_destroy. rewrite Hdata. clear Hdata.
  destruct g as [n stub ctx st lr kp lc rate mdl punct ch]; cbn.
  destruct st, finish, ctx, stub; cbn; split; reflexivity.
Qed.

(** The model string is among the blocks [destroy_keeps_block] covers:
    no statement of [google_recog_destroy] frees it, and once the engine
    data is cleared nothing refers to it. *)
Lemma destroy_keeps_model a m :
  model g = Some a →
  heap w !! a = Some (Chars m) →
  stream g ≠ Some a → context g ≠ Some a → speech_stub g ≠ Some a →
  name g ≠ Some a → last_result g ≠ Some a →
  service_account_key_path g ≠ Some a → language_code g ≠ Some a →
  heap (snd (google_recog_destroy finish w)) !! a = Some (Chars m)
  ∧ data (speech (snd (google_recog_destroy finish w))) = None.
Proof.
  intros _ Hm ? ? ? ? ? ? ?. split.
  - apply destroy_keeps_block; assumption.
  - apply destroy_clears_data.
Qed.
End Destroy.

(** C4, evaluated on the session built from the defaults, started, with
    the transcript "hello world" buffered. [google_recog_destroy] fetches
    the final status, returns 0 and clears the engine data; the stream,
    the context, the stub, the name, the last result and the language code
    are released, but the model string (address 3) and the channel object
    (address 4) are still allocated, with nothing left that refers to
    them. *)
Theorem google_recog_destroy_leaves_model_allocated :
  ∃ g w',
    data (speech answered_world) = Some g
    ∧ model g = Some 3%positive
    ∧ channel_ptr g = Some 4%positive
    ∧ google_recog_destroy (Returns 0) answered_world = (0, w')
    ∧ data (speech w') = None
    ∧ calls w' = calls answered_world ++ [CallFinish 7%positive 0]
    ∧ Forall (λ a, heap w' !! a = None)
             [1%positive; 2%positive; 5%positive; 6%positive; 7%positive; 8%positive]
    ∧ heap w' !! 3%positive = Some (Chars "default")
    ∧ heap w' !! 4%positive = Some ChannelObj.
Proof.
  eexists _, _. split; [vm_compute; reflexivity|].
  split; [reflexivity|]. split; [reflexivity|].
  split; [vm_compute; reflexivity|].
  split; [reflexivity|]. split; [vm_compute; reflexivity|].
  split; [repeat constructor|].
  split; vm_compute; reflexivity.
Qed.

(** * Further properties of the session operations

    A world can hold a session whose pointers dangle or alias; the C
    code has defined behaviour only when they are live and distinct.
    The statements below say which of these assumptions they need; where
    they need none, they hold in the model for every world. *)

(** ** Storing a result in [google_recog_write] *)

(** The world after a write whose [Read] delivered a first alternative. *)
Lemma write_stores io audio w g a response result rest alt alts :
  data (speech w) = Some g → stream g = Some a →
  wr_Write io = Returns true →
  wr_Read io = Returns (Some response) →
  results response = result :: rest →
  alternatives result = alt :: alts →
  google_recog_write io audio w
  = (0,
     let ph := ast_strdup (wr_strdup io) (c_str (transcript alt))
                 (ast_free (last_result g) (heap w)) in
     let sp1 := set_data (speech w) (Some (set_last_result g (fst ph))) in
     {| heap := snd ph;
        speech := if is_final result
                  then ast_speech_change_state sp1 AST_SPEECH_STATE_DONE
                  else sp1;
        calls := calls w ++ [CallWrite a (audio_content audio) true;
                             CallRead a (Some response)] |}).
Proof.
  intros Hd Hs Hw Hr Hres Halt. unfold google_recog_write.
  rewrite Hd, Hs, Hw, Hr, Hres, Halt.
  destruct (ast_strdup _ _ _) as [p h2]. cbn.
  rewrite <- app_assoc. reflexivity.
Qed.

(** X1. Write, then poll.  When the stream accepts the audio frame, the
    read delivers a batch and the copy of the text can be allocated, the
    slot holds the first alternative of the first result (up to its first
    NUL) and, if that text is not empty, the next poll returns it with
    score 100.  The state becomes DONE exactly when the result entry is
    final; a result that is not final leaves the state as it was. *)
Theorem write_then_get_returns_first_alternative :
  ∀ io audio w a response result rest alt alts,
    streaming_on w a →
    wr_Write io = Returns true →
    wr_Read io = Returns (Some response) →
    results response = result :: rest →
    alternatives result = alt :: alts →
    wr_strdup io = true →
    c_str (transcript alt) ≠ EmptyString →
    ∃ w1 r w2,
      google_recog_write io audio w = (0, w1)
      ∧ slot_holds w1 (c_str (transcript alt))
      ∧ state (speech w1)
        = (if is_final result then AST_SPEECH_STATE_DONE else state (speech w))
      ∧ google_recog_get true w1 = (Some r, w2)
      ∧ read_str (heap w2) (text r) = Some (c_str (transcript alt))
      ∧ score r = 100
      ∧ slot_empty w2.
Proof.
  intros io audio w a response result rest alt alts (g & Hd & Hs)
    Hw Hr Hres Halt Hdup Hne.
  rewrite (write_stores io audio w g a response result rest alt alts
             Hd Hs Hw Hr Hres Halt).
  rewrite Hdup. cbn -[fresh].
  set (h1 := ast_free (last_result g) (heap w)).
  set (t := c_str (transcript alt)) in *.
  set (w1 := {| heap := <[fresh (dom h1) := Chars t]> h1;
                speech := _; calls := _ |}).
  assert (Hd1 : data (speech w1)
                = Some (set_last_result g (Some (fresh (dom h1))))).
  { unfold w1. destruct (is_final result); reflexivity. }
  assert (Hr1 : read_str (heap w1)
                  (last_result (set_last_result g (Some (fresh (dom h1)))))
                = Some t).
  { unfold w1. cbn -[fresh]. rewrite lookup_insert_eq. reflexivity. }
  exists w1. eexists _, _.
  split; [reflexivity|].
  split; [eexists; split; [exact Hd1|split; [exact Hr1|exact Hne]]|].
  split; [unfold w1; destruct (is_final result); reflexivity|].
  split; [exact (get_buffered w1 _ t Hd1 Hr1 Hne)|].
  split; [exact Hr1|]. split; [reflexivity|].
  intros g' [= <-]. reflexivity.
Qed.

Lemma write_then_get_returns_first_alternative_witness :
  streaming_on streaming_world 7%positive
  ∧ c_str (transcript hello_alternative) ≠ EmptyString
  ∧ ∃ w1 r w2,
      google_recog_write hello_io [] streaming_world = (0, w1)
      ∧ state (speech w1) = AST_SPEECH_STATE_DONE
      ∧ google_recog_get true w1 = (Some r, w2)
      ∧ read_str (heap w2) (text r) = Some "hello world".
Proof.
  assert (Hon : streaming_on streaming_world 7%positive)
    by (eexists; split; vm_compute; reflexivity).
  assert (Hne : c_str (transcript hello_alternative) ≠ EmptyString)
    by (vm_compute; discriminate).
  split; [exact Hon|]. split; [exact Hne|].
  destruct (write_then_get_returns_first_alternative
              hello_io [] streaming_world 7%positive hello_response
              {| alternatives := [hello_alternative]; is_final := true;
                 stability := Q2Qc 0 |}
              [] hello_alternative []
              Hon eq_refl eq_refl eq_refl eq_refl eq_refl Hne)
    as (w1 & r & w2 & Hw & _ & Hst & Hg & Ht & _).
  exists w1, r, w2. split; [exact Hw|]. split; [exact Hst|].
  split; [exact Hg|exact Ht].
Defined.

Lemma fresh_lookup_None (h : gmap addr block) : h !! fresh (dom h) = None.
Proof. apply not_elem_of_dom, is_fresh. Qed.

Lemma size_delete_insert_fresh (h : gmap addr block) a0 b :
  is_Some (h !! a0) →
  size (<[fresh (dom (delete a0 h)) := b]> (delete a0 h)) = size h.
Proof.
  intros [b0 Hb0].
  rewrite map_size_insert_None by apply fresh_lookup_None.
  rewrite <- (insert_delete_id h a0 b0 Hb0) at 2.
  rewrite map_size_insert_None by apply lookup_delete_eq. reflexivity.
Qed.

(** X2. A result that arrives replaces whatever the slot held, consumed
    or not, final or not: the old buffer is freed before the copy is
    made.  So the number of allocated blocks is the same after the write
    when the slot pointed to a block, and one more when the slot was
    null. *)
Theorem write_replaces_buffered_result :
  ∀ io audio w g a response result rest alt alts,
    data (speech w) = Some g → stream g = Some a →
    wr_Write io = Returns true →
    wr_Read io = Returns (Some response) →
    results response = result :: rest →
    alternatives result = alt :: alts →
    wr_strdup io = true →
    ∃ w1 g1,
      google_recog_write io audio w = (0, w1)
      ∧ data (speech w1) = Some g1
      ∧ read_str (heap w1) (last_result g1) = Some (c_str (transcript alt))
      ∧ (∀ a0, last_result g = Some a0 → is_Some (heap w !! a0) →
           size (heap w1) = size (heap w))
      ∧ (last_result g = None → size (heap w1) = S (size (heap w))).
Proof.
  intros io audio w g a response result rest alt alts Hd Hs Hw Hr Hres Halt Hdup.
  rewrite (write_stores io audio w g a response result rest alt alts
             Hd Hs Hw Hr Hres Halt).
  rewrite Hdup. cbn -[fresh].
  eexists _, _. split; [reflexivity|]. cbn -[fresh].
  split; [destruct (is_final result); reflexivity|].
  cbn -[fresh]. rewrite lookup_insert_eq. split; [reflexivity|]. split.
  - intros a0 Ha0 Hlive. rewrite Ha0. cbn -[fresh].
    apply size_delete_insert_fresh, Hlive.
  - intros Hnull. rewrite Hnull. cbn -[fresh].
    apply map_size_insert_None, fresh_lookup_None.
Qed.

Lemma write_replaces_buffered_result_witness :
  ∃ w1 g1,
    google_recog_write
      {| wr_Write := Returns true;
         wr_Read := Returns (Some {| results :=
                      [ {| alternatives := [ {| transcript := "hello there";
                                                confidence := Q2Qc 0 |} ];
                           is_final := false; stability := Q2Qc 0 |} ] |});
         wr_strdup := true |}
      [] answered_world = (0, w1)
    ∧ data (speech w1) = Some g1
    ∧ read_str (heap w1) (last_result g1) = Some "hello there"
    ∧ size (heap w1) = size (heap answered_world).
Proof.
  destruct (write_replaces_buffered_result
              {| wr_Write := Returns true;
                 wr_Read := Returns (Some {| results :=
                      [ {| alternatives := [ {| transcript := "hello there";
                                                confidence := Q2Qc 0 |} ];
                           is_final := false; stability := Q2Qc 0 |} ] |});
                 wr_strdup := true |}
              [] answered_world
              (set_last_result (set_stream created_session (Some 7%positive))
                 (Some 8%positive))
              7%positive _ _ [] _ []
              ltac:(vm_compute; reflexivity) eq_refl eq_refl eq_refl eq_refl
              eq_refl eq_refl)
    as (w1 & g1 & Hw & Hd & Hr & Hsize & _).
  exists w1, g1. split; [exact Hw|]. split; [exact Hd|]. split; [exact Hr|].
  apply (Hsize 8%positive); [reflexivity|].
  eexists. vm_compute. reflexivity.
Defined.

(** X3. A result that cannot be kept.  When [ast_strdup] fails, or when
    the transcript is empty before its first NUL, the write still returns
    0, the previous transcript is freed all the same, and the state
    becomes DONE if the entry is final; but every later poll returns no
    result and leaves the world as it is. *)
Theorem write_result_that_cannot_be_polled :
  ∀ io audio w g a response result rest alt alts,
    data (speech w) = Some g → stream g = Some a →
    wr_Write io = Returns true →
    wr_Read io = Returns (Some response) →
    results response = result :: rest →
    alternatives result = alt :: alts →
    (wr_strdup io = false ∨ c_str (transcript alt) = EmptyString) →
    ∃ w1,
      google_recog_write io audio w = (0, w1)
      ∧ state (speech w1)
        = (if is_final result then AST_SPEECH_STATE_DONE else state (speech w))
      ∧ (∀ a0, last_result g = Some a0 →
           heap w1 !! a0 = None
           ∨ heap w1 !! a0 = Some (Chars EmptyString))
      ∧ slot_empty w1
      ∧ ∀ ok, google_recog_get ok w1 = (None, w1).
Proof.
  intros io audio w g a response result rest alt alts Hd Hs Hw Hr Hres Halt Hcase.
  rewrite (write_stores io audio w g a response result rest alt alts
             Hd Hs Hw Hr Hres Halt).
  eexists. split; [reflexivity|].
  split; [cbn -[fresh]; destruct (is_final result); reflexivity|].
  set (w1 := {| heap := _; speech := _; calls := _ |}).
  assert (Hold : ∀ a0, last_result g = Some a0 →
            heap w1 !! a0 = None ∨ heap w1 !! a0 = Some (Chars EmptyString)).
  { intros a0 Ha0. unfold w1, ast_strdup. cbn -[fresh]. rewrite Ha0.
    destruct Hcase as [-> | ->].
    - left. cbn. apply lookup_delete_eq.
    - destruct (wr_strdup io); cbn -[fresh]; [|left; apply lookup_delete_eq].
      destruct (decide (fresh (dom (delete a0 (heap w))) = a0)) as [->|Hne].
      + right. apply lookup_insert_eq.
      + left. rewrite lookup_insert_ne by exact Hne. apply lookup_delete_eq. }
  assert (He : slot_empty w1).
  { intros g1 Hg1. unfold w1, ast_strdup in *. cbn -[fresh] in *.
    destruct Hcase as [Hc | Hc]; rewrite Hc in *; cbn -[fresh] in *.
    - destruct (is_final result); cbn in Hg1; injection Hg1 as <-; reflexivity.
    - destruct (wr_strdup io); cbn -[fresh] in *;
        destruct (is_final result); cbn -[fresh] in Hg1; injection Hg1 as <-;
        unfold ast_strlen_zero; cbn -[fresh];
        rewrite ?lookup_insert_eq; reflexivity. }
  split; [exact Hold|]. split; [exact He|].
  intros ok. apply get_empty, He.
Qed.

Lemma write_result_that_cannot_be_polled_witness :
  ∃ w1,
    google_recog_write
      {| wr_Write := Returns true; wr_Read := Returns (Some hello_response);
         wr_strdup := false |}
      [] answered_world = (0, w1)
    ∧ state (speech w1) = AST_SPEECH_STATE_DONE
    ∧ google_recog_get true w1 = (None, w1).
Proof.
  destruct (write_result_that_cannot_be_polled
              {| wr_Write := Returns true; wr_Read := Returns (Some hello_response);
                 wr_strdup := false |}
              [] answered_world
              (set_last_result (set_stream created_session (Some 7%positive))
                 (Some 8%positive))
              7%positive hello_response _ [] hello_alternative []
              ltac:(vm_compute; reflexivity) eq_refl eq_refl eq_refl eq_refl
              eq_refl (or_introl eq_refl))
    as (w1 & Hw & Hst & _ & _ & Hg).
  exists w1. split; [exact Hw|]. split; [exact Hst|apply Hg].
Defined.

(** ** What a write and a poll do on the transport *)

(** X4. One [google_recog_write] makes at most one [Write] and at most
    one [Read] on the session's stream, the [Write] first and carrying
    exactly the audio bytes, and the [Read] only after a [Write] that
    succeeded.  It returns 0 or -1, and 0 exactly when there is a stream,
    the [Write] returned true and the [Read] returned (with or without a
    batch). *)
Theorem write_transport_discipline :
  ∀ io audio w,
    (fst (google_recog_write io audio w) = 0
     ∨ fst (google_recog_write io audio w) = -1)
    ∧ (fst (google_recog_write io audio w) = 0
       ↔ ∃ a resp, streaming_on w a
                   ∧ wr_Write io = Returns true
                   ∧ wr_Read io = Returns resp)
    ∧ ∃ suffix,
        calls (snd (google_recog_write io audio w)) = calls w ++ suffix
        ∧ (suffix = []
           ∨ (∃ a, streaming_on w a
                   ∧ suffix = [CallWrite a (audio_content audio) false])
           ∨ (∃ a, streaming_on w a
                   ∧ wr_Read io = Throws
                   ∧ suffix = [CallWrite a (audio_content audio) true])
           ∨ (∃ a resp, streaming_on w a
                        ∧ suffix = [CallWrite a (audio_content audio) true;
                                    CallRead a resp])).
Proof.
  intros io audio w. unfold google_recog_write, streaming_on.
  destruct (data (speech w)) as [g|] eqn:Hd.
  2:{ cbn. split; [right; reflexivity|]. split.
      - split; [discriminate|]. intros (a & r & (g & Hg & _) & _). discriminate.
      - exists []. rewrite app_nil_r. split; [reflexivity|left; reflexivity]. }
  destruct (stream g) as [a|] eqn:Hs.
  2:{ cbn. split; [right; reflexivity|]. split.
      - split; [discriminate|].
        intros (a & r & (g' & [= <-] & Hs') & _). congruence.
      - exists []. rewrite app_nil_r. split; [reflexivity|left; reflexivity]. }
  assert (Hon : ∃ g0, Some g = Some g0 ∧ stream g0 = Some a) by eauto.
  destruct (wr_Write io) as [[|]|] eqn:Hw.
  - destruct (wr_Read io) as [[response|]|] eqn:Hr.
    + assert (Hcalls :
                ∃ suffix,
                  (calls w ++ [CallWrite a (audio_content audio) true])
                    ++ [CallRead a (Some response)] = calls w ++ suffix
                  ∧ (suffix = []
                     ∨ (∃ a0, (∃ g0, Some g = Some g0 ∧ stream g0 = Some a0)
                          ∧ suffix = [CallWrite a0 (audio_content audio) false])
                     ∨ (∃ a0, (∃ g0, Some g = Some g0 ∧ stream g0 = Some a0)
                          ∧ Returns (Some response) = Throws
                          ∧ suffix = [CallWrite a0 (audio_content audio) true])
                     ∨ (∃ a0 resp, (∃ g0, Some g = Some g0 ∧ stream g0 = Some a0)
                          ∧ suffix = [CallWrite a0 (audio_content audio) true;
                                      CallRead a0 resp]))).
      { eexists. rewrite <- app_assoc. split; [reflexivity|].
        right. right. right. exists a, (Some response). split; [exact Hon|reflexivity]. }
      destruct (results response) as [|result rest];
        [|destruct (alternatives result) as [|alt alts];
          [|destruct (ast_strdup _ _ _) as [p h2]]];
        cbn; (split; [left; reflexivity|]);
        (split; [split; [intros _; exists a; eauto|reflexivity]|]);
        exact Hcalls.
    + cbn. split; [left; reflexivity|].
      split; [split; [intros _; exists a; eauto|reflexivity]|].
      eexists. rewrite <- app_assoc. split; [reflexivity|].
      right. right. right. exists a, None. split; [exact Hon|reflexivity].
    + cbn. split; [right; reflexivity|]. split.
      * split; [discriminate|]. intros (a0 & r & _ & _ & Hr'). discriminate.
      * eexists. split; [reflexivity|]. right. right. left.
        exists a. split; [exact Hon|]. split; reflexivity.
  - cbn. split; [right; reflexivity|]. split.
    + split; [discriminate|]. intros (a0 & r & _ & Hw' & _). discriminate.
    + eexists. split; [reflexivity|]. right. left.
      exists a. split; [exact Hon|reflexivity].
  - cbn. split; [right; reflexivity|]. split.
    + split; [discriminate|]. intros (a0 & r & _ & Hw' & _). discriminate.
    + exists []. rewrite app_nil_r. split; [reflexivity|left; reflexivity].
Qed.

(** X5. A poll never touches the transport and never allocates or frees
    in the session's heap, and it leaves the state alone: whatever it
    returns, the call log, the heap, the state and the SPOKE flag are
    those it was given.  It cannot block on the stream. *)
Theorem google_recog_get_is_local :
  ∀ ok w,
    calls (snd (google_recog_get ok w)) = calls w
    ∧ heap (snd (google_recog_get ok w)) = heap w
    ∧ state (speech (snd (google_recog_get ok w))) = state (speech w)
    ∧ spoke (speech (snd (google_recog_get ok w))) = spoke (speech w).
Proof.
  intros ok w. unfold google_recog_get.
  destruct (data (speech w)) as [g|]; [|repeat split].
  destruct (ast_strlen_zero _ _); [repeat split|].
  destruct ok; repeat split.
Qed.

(** ** Starting again and failing to start *)

Lemma delete_fresh_insert (h : gmap addr block) b :
  delete (fresh (dom h)) (<[fresh (dom h) := b]> h) = h.
Proof. apply delete_insert_id, fresh_lookup_None. Qed.

(** X6. A start that fails on a session that has its stub and its
    context returns -1, changes neither the state nor any setting nor the
    result slot, and leaves the session without a stream: the stream it
    may have opened is deleted again, and so is the one the session had
    before.  A write that follows is refused with -1 and changes
    nothing.  (The case left out is an exception from
    [StreamingRecognize] on a session that had a stream: the source then
    deletes the old stream twice.) *)
Theorem failed_start_leaves_no_stream :
  ∀ io w g r w',
    data (speech w) = Some g →
    is_Some (speech_stub g) → is_Some (context g) →
    (st_StreamingRecognize io = Throws → stream g = None) →
    google_recog_start io w = (r, w') →
    r ≠ 0 →
    r = -1
    ∧ data (speech w') = Some (set_stream g None)
    ∧ state (speech w') = state (speech w)
    ∧ heap w' = match stream g with
                | None => heap w
                | Some old => delete old (heap w)
                end
    ∧ ∀ io' audio, google_recog_write io' audio w' = (-1, w').
Proof.
  intros io w g r w' Hd [stub Hstub] [ctx Hctx] Hdef Hstart Hr.
  revert Hstart. unfold google_recog_start, start_catch, cxx_new, cxx_delete.
  rewrite Hd, Hstub, Hctx.
  set (h1 := match stream g with
             | None => heap w
             | Some old => delete old (heap w)
             end).
  destruct (st_StreamingRecognize io) as [[]|].
  2:{ destruct (stream g) as [old|] eqn:Hs; intros [= <- <-]; cbn.
      - discriminate (Hdef eq_refl).
      - assert (Hg : g = set_stream g None)
          by (destruct g; cbn in *; subst; reflexivity).
        split; [reflexivity|]. split; [congruence|].
        split; [reflexivity|]. split; [reflexivity|].
        intros io' audio. unfold google_recog_write. cbn. rewrite Hs. reflexivity. }
  cbn -[fresh].
  destruct (read_str _ (language_code g)) as [lang|].
  2:{ intros [= <- <-]. cbn -[fresh].
      split; [reflexivity|]. split; [reflexivity|]. split; [reflexivity|].
      split; [apply delete_fresh_insert|]. reflexivity. }
  destruct (st_Write io) as [[|]|].
  - intros [= <- <-]. congruence.
  - destruct (st_Finish io) as [code|]; intros [= <- <-]; cbn -[fresh];
      (split; [reflexivity|]); (split; [reflexivity|]); (split; [reflexivity|]);
      (split; [apply delete_fresh_insert|]); reflexivity.
  - intros [= <- <-]. cbn -[fresh].
    split; [reflexivity|]. split; [reflexivity|]. split; [reflexivity|].
    split; [apply delete_fresh_insert|]. reflexivity.
Qed.

Lemma failed_start_leaves_no_stream_witness :
  ∃ w', google_recog_start
          {| st_StreamingRecognize := Returns tt; st_Write := Returns false;
             st_Finish := Returns 14 |} answered_world = (-1, w')
        ∧ heap w' = delete 7%positive (heap answered_world)
        ∧ google_recog_write hello_io [] w' = (-1, w').
Proof.
  set (io := {| st_StreamingRecognize := Returns tt; st_Write := Returns false;
                st_Finish := Returns 14 |}).
  exists (snd (google_recog_start io answered_world)).
  assert (Hs : google_recog_start io answered_world
               = (-1, snd (google_recog_start io answered_world)))
    by (vm_compute; reflexivity).
  destruct (failed_start_leaves_no_stream io answered_world
              (set_last_result (set_stream created_session (Some 7%positive))
                 (Some 8%positive))
              (-1) _
              ltac:(vm_compute; reflexivity)
              ltac:(eexists; reflexivity) ltac:(eexists; reflexivity)
              ltac:(discriminate) Hs ltac:(discriminate))
    as (_ & _ & _ & Hh & Hw).
  split; [exact Hs|]. split; [exact Hh|apply Hw].
Defined.

(** X7. Starting a session that already has a stream.  When the start
    succeeds, the old stream object is deleted without [WritesDone] or
    [Finish] (the only calls added to the log are the opening of the new
    stream and its configuration frame), the session points to the new
    stream, and the heap holds as many blocks as before: streams do not
    pile up. *)
Theorem restart_replaces_the_stream :
  ∀ io w w' g old,
    data (speech w) = Some g →
    stream g = Some old →
    heap w !! old = Some StreamObj →
    google_recog_start io w = (0, w') →
    ∃ a request,
      data (speech w') = Some (set_stream g (Some a))
      ∧ heap w' = <[a := StreamObj]> (delete old (heap w))
      ∧ delete old (heap w) !! a = None
      ∧ size (heap w') = size (heap w)
      ∧ state (speech w') = AST_SPEECH_STATE_READY
      ∧ calls w' = calls w ++ [CallStreamingRecognize a; CallWrite a request true].
Proof.
  intros io w w' g old Hd Hs Hold. unfold google_recog_start, start_catch, cxx_new.
  rewrite Hd, Hs.
  destruct (speech_stub g); [|discriminate].
  destruct (context g); [|discriminate].
  destruct (st_StreamingRecognize io) as [[]|]; [|discriminate].
  cbn -[fresh]. unfold cxx_delete.
  destruct (read_str _ (language_code g)) as [lang|]; [|discriminate].
  destruct (st_Write io) as [[|]|];
    [|destruct (st_Finish io); discriminate|discriminate].
  intros [= <-]. cbn -[fresh]. eexists _, _.
  split; [reflexivity|]. split; [reflexivity|].
  split; [apply fresh_lookup_None|].
  split; [apply size_delete_insert_fresh; eauto|].
  split; [reflexivity|]. rewrite <- app_assoc. reflexivity.
Qed.

Lemma restart_replaces_the_stream_witness :
  ∃ w' a,
    google_recog_start start_ok answered_world = (0, w')
    ∧ heap w' = <[a := StreamObj]> (delete 7%positive (heap answered_world))
    ∧ size (heap w') = size (heap answered_world).
Proof.
  exists (snd (google_recog_start start_ok answered_world)).
  assert (Hs : google_recog_start start_ok answered_world
               = (0, snd (google_recog_start start_ok answered_world)))
    by (vm_compute; reflexivity).
  destruct (restart_replaces_the_stream start_ok answered_world _
              (set_last_result (set_stream created_session (Some 7%positive))
                 (Some 8%positive))
              7%positive
              ltac:(vm_compute; reflexivity) eq_refl
              ltac:(vm_compute; reflexivity) Hs)
    as (a & request & _ & Hh & _ & Hsize & _).
  exists a. split; [exact Hs|]. split; [exact Hh|exact Hsize].
Defined.

(** ** Destroying a session *)

Lemma destroy_data_None finish w :
  data (speech (snd (google_recog_destroy finish w))) = None.
Proof.
  destruct (data (speech w)) as [g|] eqn:Hd.
  - apply (destroy_clears_data finish w g Hd).
  - unfold google_recog_destroy. rewrite Hd. exact Hd.
Qed.

(** X8. [google_recog_destroy] always returns 0 and leaves the speech
    object without engine data and with its state untouched.  It can be
    called again at once and then changes nothing, and after it every
    other entry point is refused without any effect: write and start
    return -1, the poll returns no result, stop returns 0. *)
Theorem destroy_is_final :
  ∀ finish w,
    fst (google_recog_destroy finish w) = 0
    ∧ data (speech (snd (google_recog_destroy finish w))) = None
    ∧ state (speech (snd (google_recog_destroy finish w))) = state (speech w)
    ∧ (∀ finish', google_recog_destroy finish' (snd (google_recog_destroy finish w))
                  = (0, snd (google_recog_destroy finish w)))
    ∧ (∀ io audio, google_recog_write io audio (snd (google_recog_destroy finish w))
                   = (-1, snd (google_recog_destroy finish w)))
    ∧ (∀ io, google_recog_start io (snd (google_recog_destroy finish w))
             = (-1, snd (google_recog_destroy finish w)))
    ∧ (∀ ok, google_recog_get ok (snd (google_recog_destroy finish w))
             = (None, snd (google_recog_destroy finish w)))
    ∧ (∀ o, google_recog_stop o (snd (google_recog_destroy finish w))
            = (0, snd (google_recog_destroy finish w))).
Proof.
  intros finish w.
  pose proof (destroy_data_None finish w) as Hnone.
  set (w1 := snd (google_recog_destroy finish w)) in *.
  split.
  { unfold google_recog_destroy. destruct (data (speech w)) as [g|]; [|reflexivity].
    destruct g as [n stub ctx st lr kp lc rate mdl punct ch]; cbn.
    destruct st, finish, ctx, stub; reflexivity. }
  split; [exact Hnone|]. split.
  { unfold w1, google_recog_destroy. destruct (data (speech w)) as [g|]; [|reflexivity].
    destruct g as [n stub ctx st lr kp lc rate mdl punct ch]; cbn.
    destruct st, finish, ctx, stub; reflexivity. }
  unfold google_recog_destroy, google_recog_write, google_recog_start,
    google_recog_get, google_recog_stop.
  rewrite Hnone. repeat split.
Qed.

(** X9. The stream object is released exactly when [Finish] returns.
    With a stream at [a] that no other field of the session designates:
    if [Finish] returns a status, that one call is logged and the block at
    [a] is gone; if [Finish] throws, nothing is logged and the block at
    [a] is still allocated although the engine data is cleared. *)
Theorem destroy_releases_stream_iff_finish_returns :
  ∀ w g a b,
    data (speech w) = Some g →
    stream g = Some a →
    heap w !! a = Some b →
    context g ≠ Some a → speech_stub g ≠ Some a → name g ≠ Some a →
    last_result g ≠ Some a → service_account_key_path g ≠ Some a →
    language_code g ≠ Some a →
    (∀ code,
       heap (snd (google_recog_destroy (Returns code) w)) !! a = None
       ∧ calls (snd (google_recog_destroy (Returns code) w))
         = calls w ++ [CallFinish a code])
    ∧ heap (snd (google_recog_destroy Throws w)) !! a = Some b
    ∧ calls (snd (google_recog_destroy Throws w)) = calls w
    ∧ data (speech (snd (google_recog_destroy Throws w))) = None.
Proof.
  intros w g a b Hd Hs Hb Hctx Hstub Hname Hlast Hkey Hlang.
  split; [intros code; split|split; [|split]].
  - apply (destroy_releases (Returns code) w g Hd a).
    do 6 right. split; [exact Hs|]. eauto.
  - unfold google_recog_destroy. rewrite Hd.
    destruct g as [n stub ctx st lr kp lc rate mdl punct ch]; cbn in *. subst st.
    destruct ctx, stub; reflexivity.
  - unfold google_recog_destroy, ast_free, cxx_delete. rewrite Hd, Hs.
    destruct g as [n stub ctx st lr kp lc rate mdl punct ch]; cbn in *.
    destruct ctx, stub, n, lr, kp, lc; cbn;
      rewrite ?lookup_delete_ne by congruence; exact Hb.
  - unfold google_recog_destroy. rewrite Hd.
    destruct g as [n stub ctx st lr kp lc rate mdl punct ch]; cbn in *. subst st.
    destruct ctx, stub; reflexivity.
  - apply destroy_data_None.
Qed.

Lemma destroy_releases_stream_iff_finish_returns_witness :
  heap (snd (google_recog_destroy (Returns 0) answered_world)) !! 7%positive = None
  ∧ heap (snd (google_recog_destroy Throws answered_world)) !! 7%positive
    = Some StreamObj.
Proof.
  destruct (destroy_releases_stream_iff_finish_returns answered_world
              (set_last_result (set_stream created_session (Some 7%positive))
                 (Some 8%positive))
              7%positive StreamObj
              ltac:(vm_compute; reflexivity) eq_refl
              ltac:(vm_compute; reflexivity)
              ltac:(discriminate) ltac:(discriminate) ltac:(discriminate)
              ltac:(discriminate) ltac:(discriminate) ltac:(discriminate))
    as (Hret & Hthrow & _).
  split; [apply (Hret 0)|exact Hthrow].
Defined.

(** X10. What [google_recog_destroy] frees and what it does not, for
    every session: the blocks behind the context, the stub, the name, the
    last result, the key path and the language code are gone afterwards;
    a live block behind the model or the channel pointer, when none of
    the freed pointers designates it, is still allocated, and with the
    engine data cleared nothing refers to it any more. *)
Theorem destroy_frees_all_but_model_and_channel :
  ∀ finish w g,
    data (speech w) = Some g →
    (∀ a, model g = Some a ∨ channel_ptr g = Some a →
          Some a ∉ [stream g; context g; speech_stub g; name g; last_result g;
                    service_account_key_path g; language_code g]) →
    (∀ a, Some a ∈ [context g; speech_stub g; name g; last_result g;
                    service_account_key_path g; language_code g] →
          heap (snd (google_recog_destroy finish w)) !! a = None)
    ∧ (∀ a b, model g = Some a ∨ channel_ptr g = Some a →
              heap w !! a = Some b →
              heap (snd (google_recog_destroy finish w)) !! a = Some b)
    ∧ data (speech (snd (google_recog_destroy finish w))) = None.
Proof.
  intros finish w g Hd Hsep. split; [|split].
  - intros a Ha. apply (destroy_releases finish w g Hd a).
    rewrite !elem_of_cons in Ha.
    destruct Ha as [Ha|[Ha|[Ha|[Ha|[Ha|[Ha|Ha]]]]]];
      [..|apply elem_of_nil in Ha; destruct Ha]; symmetry in Ha; tauto.
  - intros a b Ha Hb. specialize (Hsep a Ha).
    rewrite !not_elem_of_cons in Hsep.
    destruct Hsep as (H1 & H2 & H3 & H4 & H5 & H6 & H7 & _).
    apply (destroy_keeps_block finish w g Hd a b Hb); congruence.
  - apply destroy_data_None.
Qed.

Lemma destroy_frees_all_but_model_and_channel_witness :
  heap (snd (google_recog_destroy (Returns 0) answered_world)) !! 8%positive = None
  ∧ heap (snd (google_recog_destroy (Returns 0) answered_world)) !! 3%positive
    = Some (Chars "default")
  ∧ heap (snd (google_recog_destroy (Returns 0) answered_world)) !! 4%positive
    = Some ChannelObj.
Proof.
  destruct (destroy_frees_all_but_model_and_channel (Returns 0) answered_world
              (set_last_result (set_stream created_session (Some 7%positive))
                 (Some 8%positive))
              ltac:(vm_compute; reflexivity)
              ltac:(intros a [[= <-]|[= <-]]; cbn;
                    rewrite !not_elem_of_cons; repeat split;
                    try discriminate; apply not_elem_of_nil))
    as (Hfree & Hkeep & _).
  split; [apply Hfree; cbn; rewrite !elem_of_cons; tauto|].
  split.
  - apply Hkeep; [left; reflexivity|vm_compute; reflexivity].
  - apply Hkeep; [right; reflexivity|vm_compute; reflexivity].
Defined.

(** ** Stopping, and what survives *)

(** X11. [google_recog_stop] only signals the half-close: it frees
    nothing, leaves every field of the session as it was (stream pointer
    and result slot included) and adds at most one [WritesDone] to the
    log, never a [Finish].  So a transcript that was buffered before the
    stop is still returned by the next poll, and the stream is still
    there for a later write. *)
Theorem stop_keeps_result_and_stream :
  ∀ o w t,
    slot_holds w t →
    heap (snd (google_recog_stop o w)) = heap w
    ∧ data (speech (snd (google_recog_stop o w))) = data (speech w)
    ∧ (calls (snd (google_recog_stop o w)) = calls w
       ∨ ∃ a ok, streaming_on w a
                 ∧ o = Returns ok
                 ∧ calls (snd (google_recog_stop o w))
                   = calls w ++ [CallWritesDone a ok])
    ∧ (∀ a, streaming_on w a → streaming_on (snd (google_recog_stop o w)) a)
    ∧ ∃ r w2,
        google_recog_get true (snd (google_recog_stop o w)) = (Some r, w2)
        ∧ read_str (heap w2) (text r) = Some t.
Proof.
  intros o w t (g & Hd & Hr & Hne).
  assert (Hh : heap (snd (google_recog_stop o w)) = heap w).
  { unfold google_recog_stop. rewrite Hd. reflexivity. }
  pose proof (stop_keeps_data o w) as Hdata.
  split; [exact Hh|]. split; [exact Hdata|]. split; [|split].
  - unfold google_recog_stop, streaming_on. rewrite Hd. cbn.
    destruct (stream g) as [a|] eqn:Hs; [|left; reflexivity].
    destruct o as [ok|]; [|left; reflexivity].
    right. exists a, ok. split; [eauto|]. split; reflexivity.
  - intros a (g' & Hg' & Hs). exists g'. rewrite Hdata. split; assumption.
  - eexists _, _. split.
    + apply (get_buffered _ g t); [congruence|rewrite Hh; exact Hr|exact Hne].
    + cbn. rewrite Hh. exact Hr.
Qed.

Lemma stop_keeps_result_and_stream_witness :
  slot_holds answered_world "hello world"
  ∧ streaming_on (snd (google_recog_stop (Returns false) answered_world)) 7%positive
  ∧ ∃ r w2,
      google_recog_get true (snd (google_recog_stop (Returns false) answered_world))
      = (Some r, w2)
      ∧ read_str (heap w2) (text r) = Some "hello world".
Proof.
  assert (Hs : slot_holds answered_world "hello world") by eval_slot_holds.
  split; [exact Hs|].
  destruct (stop_keeps_result_and_stream (Returns false) answered_world
              "hello world" Hs)
    as (_ & _ & _ & Hon & Hget).
  split; [|exact Hget].
  apply Hon. eexists. split; vm_compute; reflexivity.
Defined.

(** X12. The text handed out by a poll belongs to the caller: once the
    slot is cleared the session no longer refers to it, and a destroy
    that follows leaves it allocated and readable (as long as no other
    field of the session pointed to the same block). *)
Theorem polled_text_survives_destroy :
  ∀ finish w g a t,
    data (speech w) = Some g →
    last_result g = Some a →
    heap w !! a = Some (Chars t) →
    t ≠ EmptyString →
    Some a ∉ [stream g; context g; speech_stub g; name g;
              service_account_key_path g; language_code g] →
    ∃ r w1,
      google_recog_get true w = (Some r, w1)
      ∧ text r = Some a
      ∧ read_str (heap (snd (google_recog_destroy finish w1))) (text r) = Some t.
Proof.
  intros finish w g a t Hd Hl Hb Hne Hsep.
  assert (Hr : read_str (heap w) (last_result g) = Some t)
    by (rewrite Hl; cbn; rewrite Hb; reflexivity).
  rewrite (get_buffered w g t Hd Hr Hne). eexists _, _.
  split; [reflexivity|]. split; [exact Hl|].
  rewrite !not_elem_of_cons in Hsep.
  destruct Hsep as (H1 & H2 & H3 & H4 & H5 & H6 & _).
  cbn [text]. rewrite Hl. unfold read_str.
  set (w1 := {| heap := heap w;
                speech := set_data (speech w) (Some (set_last_result g None));
                calls := calls w |}).
  assert (Hd1 : data (speech w1) = Some (set_last_result g None)) by reflexivity.
  rewrite (destroy_keeps_block finish w1 (set_last_result g None) Hd1 a (Chars t));
    cbn; congruence.
Qed.

Lemma polled_text_survives_destroy_witness :
  ∃ r w1,
    google_recog_get true answered_world = (Some r, w1)
    ∧ text r = Some 8%positive
    ∧ read_str (heap (snd (google_recog_destroy (Returns 0) w1))) (text r)
      = Some "hello world".
Proof.
  apply (polled_text_survives_destroy (Returns 0) answered_world
           (set_last_result (set_stream created_session (Some 7%positive))
              (Some 8%positive))
           8%positive "hello world").
  - vm_compute. reflexivity.
  - reflexivity.
  - vm_compute. reflexivity.
  - discriminate.
  - cbn. rewrite !not_elem_of_cons. repeat split; try discriminate.
    apply not_elem_of_nil.
Defined.

(** ** The settings of a session never change *)

(** X13. Between creation and destruction the settings of a session are
    fixed: write, stop, start and the poll, whatever the transport and
    the allocator answer and whether they succeed or fail, keep the
    engine data in place and leave the name, the stub, the context, the
    key path, the language code, the sample rate, the model, the
    punctuation flag and the channel pointer as they were.  Only the
    stream pointer and the result slot are ever assigned.  (For start,
    the exception from [StreamingRecognize] on a session that had a
    stream is left out, as above.) *)
Theorem settings_are_fixed_after_creation :
  ∀ w g,
    data (speech w) = Some g →
    (∀ io audio, ∃ g',
       data (speech (snd (google_recog_write io audio w))) = Some g'
       ∧ session_settings g' = session_settings g
       ∧ stream g' = stream g)
    ∧ (∀ o, data (speech (snd (google_recog_stop o w))) = Some g)
    ∧ (∀ io, (st_StreamingRecognize io = Throws → stream g = None) →
       ∃ g',
         data (speech (snd (google_recog_start io w))) = Some g'
         ∧ session_settings g' = session_settings g
         ∧ last_result g' = last_result g)
    ∧ (∀ ok, ∃ g',
       data (speech (snd (google_recog_get ok w))) = Some g'
       ∧ session_settings g' = session_settings g
       ∧ stream g' = stream g).
Proof.
  intros w g Hd. split; [|split; [|split]].
  - intros io audio. unfold google_recog_write. rewrite Hd.
    destruct (stream g) as [a|] eqn:Hs; [|exists g; cbn; rewrite Hd; auto].
    destruct (wr_Write io) as [[|]|];
      [|exists g; cbn; rewrite Hd; auto|exists g; cbn; rewrite Hd; auto].
    destruct (wr_Read io) as [[response|]|];
      [|exists g; cbn; rewrite Hd; auto|exists g; cbn; rewrite Hd; auto].
    destruct (results response) as [|result rest];
      [exists g; cbn; rewrite Hd; auto|].
    destruct (alternatives result) as [|alt alts];
      [exists g; cbn; rewrite Hd; auto|].
    destruct (ast_strdup _ _ _) as [p h2].
    exists (set_last_result g p). destruct (is_final result); cbn; auto.
  - intros o. rewrite stop_keeps_data. exact Hd.
  - intros io _. unfold google_recog_start, start_catch, cxx_new. rewrite Hd.
    destruct (speech_stub g); [|exists g; cbn; rewrite Hd; auto].
    destruct (context g); [|exists g; cbn; rewrite Hd; auto].
    destruct (st_StreamingRecognize io) as [[]|].
    2:{ destruct (stream g) as [old|] eqn:Hs; eexists; cbn; eauto. }
    cbn -[fresh].
    destruct (read_str _ (language_code g)); [|eexists; cbn; eauto].
    destruct (st_Write io) as [[|]|]; [| |eexists; cbn; eauto].
    + eexists; cbn; eauto.
    + destruct (st_Finish io); eexists; cbn; eauto.
  - intros ok. unfold google_recog_get. rewrite Hd.
    destruct (ast_strlen_zero _ _); [exists g; cbn; rewrite Hd; auto|].
    destruct ok; cbn; [eexists; cbn; eauto|exists g; rewrite Hd; auto].
Qed.

Lemma settings_are_fixed_after_creation_witness :
  ∃ g',
    data (speech (snd (google_recog_write hello_io [] streaming_world))) = Some g'
    ∧ session_settings g'
      = session_settings (set_stream created_session (Some 7%positive)).
Proof.
  destruct (proj1 (settings_are_fixed_after_creation streaming_world
                     (set_stream created_session (Some 7%positive))
                     ltac:(vm_compute; reflexivity)) hello_io [])
    as (g' & Hd' & Hset & _).
  exists g'. split; assumption.
Defined.

(** * The engine defaults, creation, load and unload *)

(** ** Allocation facts *)

Lemma strdup_true s h :
  ast_strdup true s h = (Some (fresh (dom h)), <[fresh (dom h) := Chars s]> h).
Proof. reflexivity. Qed.

Lemma strdup_false s h : ast_strdup false s h = (None, h).
Proof. reflexivity. Qed.

Lemma strdup_then_free ok s h :
  ast_free (fst (ast_strdup ok s h)) (snd (ast_strdup ok s h)) = h.
Proof.
  destruct ok; cbn -[fresh]; [apply delete_fresh_insert|reflexivity].
Qed.

Lemma ast_free_comm p q (h : gmap addr block) :
  ast_free p (ast_free q h) = ast_free q (ast_free p h).
Proof.
  destruct p as [a|], q as [b|]; cbn; try reflexivity. apply delete_delete.
Qed.

(** What a copy gives: every string that could be read before still can,
    through a pointer that differs from the new one; and when memory was
    granted the new pointer reads the copied string. *)
Lemma strdup_reads ok s h :
  (ok = true →
   read_str (snd (ast_strdup ok s h)) (fst (ast_strdup ok s h)) = Some s)
  ∧ ∀ p t, read_str h p = Some t →
           read_str (snd (ast_strdup ok s h)) p = Some t
           ∧ p ≠ fst (ast_strdup ok s h).
Proof.
  destruct ok; cbn -[fresh].
  - rewrite lookup_insert_eq. split; [reflexivity|].
    intros p t Hp. apply read_str_Some in Hp as (a & -> & Ha).
    assert (Hne : fresh (dom h) ≠ a).
    { intros Heq. pose proof (fresh_lookup_None h) as Hf. congruence. }
    split; [|congruence].
    cbn -[fresh]. rewrite lookup_insert_ne by exact Hne. rewrite Ha. reflexivity.
  - split; [discriminate|]. intros p t Hp. split; [exact Hp|].
    intros ->. discriminate.
Qed.

Lemma free_keeps_read h p q t :
  read_str h p = Some t → p ≠ q → read_str (ast_free q h) p = Some t.
Proof.
  intros Hp Hne. destruct q as [b|]; [|exact Hp].
  apply read_str_Some in Hp as (a & -> & Ha). cbn.
  rewrite lookup_delete_ne by congruence. rewrite Ha. reflexivity.
Qed.

(** One overridable default, when memory is granted: the resulting
    pointer reads the configured value, or what the old pointer read when
    the value is missing or empty; other readable strings stay readable,
    through pointers that differ from the resulting one. *)
Lemma override_reads value old h d :
  read_str h old = Some d →
  read_str (snd (override_default true value old h))
           (fst (override_default true value old h))
  = Some (or_default value d)
  ∧ ∀ p t, read_str h p = Some t → p ≠ old →
           read_str (snd (override_default true value old h)) p = Some t
           ∧ p ≠ fst (override_default true value old h).
Proof.
  intros Hold. unfold override_default, or_default.
  destruct value as [s|]; [case_bool_decide|];
    try (split; [exact Hold|intros p t Hp Hne; split; assumption]).
  destruct (strdup_reads true s (ast_free old h)) as [Hnew Hkeep].
  split; [apply Hnew; reflexivity|].
  intros p t Hp Hne. apply Hkeep, free_keeps_read; assumption.
Qed.

(** The same for a default that starts out null (the key path). *)
Lemma override_reads_null value h :
  (value_strlen_zero value = true →
   override_default true value None h = (None, h))
  ∧ (value_strlen_zero value = false →
     read_str (snd (override_default true value None h))
              (fst (override_default true value None h))
     = value)
  ∧ ∀ p t, read_str h p = Some t →
           read_str (snd (override_default true value None h)) p = Some t
           ∧ p ≠ fst (override_default true value None h).
Proof.
  unfold override_default, value_strlen_zero.
  destruct value as [s|]; [case_bool_decide|].
  - subst. split; [reflexivity|]. split; [discriminate|].
    intros p t Hp. split; [exact Hp|]. intros ->. discriminate.
  - destruct (strdup_reads true s (ast_free None h)) as [Hnew Hkeep].
    split; [discriminate|]. split; [intros _; apply Hnew; reflexivity|].
    intros p t Hp. apply Hkeep. exact Hp.
  - split; [reflexivity|]. split; [discriminate|].
    intros p t Hp. split; [exact Hp|]. intros ->. discriminate.
Qed.

(** ** google_engine_config_load *)

(** X14. Loading the configuration.  The call returns 0 and marks the
    global as initialized, with or without a file.  When memory is
    granted, the language default reads the [language_code] of
    [general] if it is there and not empty, else "en-US"; the model
    default reads [model] or else "default"; the key path is null unless
    [service_account_key_path] is there and not empty; and the
    punctuation flag is the host's [ast_true] of
    [enable_automatic_punctuation], false when that is missing or
    empty. *)
Theorem config_load_resolves_defaults :
  ∀ io e h,
    cl_strdup_default_language io = true →
    cl_strdup_default_model io = true →
    cl_strdup_key_path io = true →
    cl_strdup_language io = true →
    cl_strdup_model io = true →
    ∃ e' h',
      google_engine_config_load io e h = (0, (e', h'))
      ∧ initialized e' = 1
      ∧ read_str h' (default_language_code e')
        = Some (or_default (configured io "language_code") "en-US")
      ∧ read_str h' (default_model e')
        = Some (or_default (configured io "model") "default")
      ∧ read_str h' (default_service_account_key_path e')
        = (if value_strlen_zero (configured io "service_account_key_path")
           then None
           else configured io "service_account_key_path")
      ∧ default_enable_automatic_punctuation e'
        = match configured io "enable_automatic_punctuation" with
          | None => false
          | Some s => if bool_decide (s = EmptyString) then false
                      else cl_ast_true io s
          end.
Proof.
  intros io e h E1 E2 E3 E4 E5. unfold google_engine_config_load, configured.
  rewrite E1, E2, E3, E4, E5. clear E1 E2 E3 E4 E5.
  destruct (strdup_reads true "en-US" h) as [Hl0 _].
  destruct (ast_strdup true "en-US" h) as [lang0 h1]. cbn [fst snd] in Hl0.
  specialize (Hl0 eq_refl).
  destruct (strdup_reads true "default" h1) as [Hm0 Hk1].
  destruct (ast_strdup true "default" h1) as [model0 h2]. cbn [fst snd] in Hm0, Hk1.
  specialize (Hm0 eq_refl). destruct (Hk1 _ _ Hl0) as [Hl1 Hlm].
  destruct (cl_ast_config_load io) as [cfg|].
  2:{ eexists _, _. split; [reflexivity|]. cbn. auto. }
  destruct (override_reads_null (cfg "general" "service_account_key_path") h2)
    as (Hkz & Hkv & Hk2).
  destruct (override_default true (cfg "general" "service_account_key_path") None h2)
    as [key1 h3] eqn:Ekey. cbn [fst snd] in Hkv, Hk2.
  destruct (Hk2 _ _ Hl1) as [Hl2 Hlk]. destruct (Hk2 _ _ Hm0) as [Hm2 Hmk].
  destruct (override_reads (cfg "general" "language_code") lang0 h3 "en-US" Hl2)
    as [Hl3 Hk3].
  destruct (override_default true (cfg "general" "language_code") lang0 h3)
    as [lang1 h4]. cbn [fst snd] in Hl3, Hk3.
  destruct (Hk3 _ _ Hm2 ltac:(congruence)) as [Hm3 Hml].
  destruct (override_reads (cfg "general" "model") model0 h4 "default" Hm3)
    as [Hm4 Hk4].
  destruct (override_default true (cfg "general" "model") model0 h4)
    as [model1 h5]. cbn [fst snd] in Hm4, Hk4.
  destruct (Hk4 _ _ Hl3 ltac:(congruence)) as [Hl4 _].
  eexists _, _. split; [reflexivity|]. cbn.
  split; [reflexivity|]. split; [exact Hl4|]. split; [exact Hm4|].
  split; [|reflexivity].
  destruct (value_strlen_zero (cfg "general" "service_account_key_path")) eqn:Hz.
  - pose proof (Hkz eq_refl) as Hnull. injection Hnull as -> ->. reflexivity.
  - specialize (Hkv eq_refl).
    destruct (cfg "general" "service_account_key_path") as [k|]; [|discriminate].
    destruct (Hk3 _ _ Hkv) as [Hkv3 Hkl].
    { intros ->. apply (Hlk eq_refl). }
    destruct (Hk4 _ _ Hkv3) as [Hkv4 _]; [|exact Hkv4].
    intros ->. apply (Hmk eq_refl).
Qed.

Lemma config_load_resolves_defaults_witness :
  ∃ e' h',
    google_engine_config_load with_config blank_engine ∅ = (0, (e', h'))
    ∧ read_str h' (default_language_code e') = Some "es-ES"
    ∧ read_str h' (default_model e') = Some "latest_long"
    ∧ read_str h' (default_service_account_key_path e') = Some "/etc/key.json"
    ∧ default_enable_automatic_punctuation e' = true.
Proof.
  destruct (config_load_resolves_defaults with_config blank_engine ∅
              eq_refl eq_refl eq_refl eq_refl eq_refl)
    as (e' & h' & Hload & _ & Hl & Hm & Hk & Hp).
  exists e', h'. split; [exact Hload|]. split; [exact Hl|].
  split; [exact Hm|]. split; [exact Hk|exact Hp].
Defined.

Lemma keeps_strdup h h' ok s :
  keeps h h' →
  keeps h (snd (ast_strdup ok s h')) ∧ fresh_for h (fst (ast_strdup ok s h')).
Proof.
  intros Hk. destruct ok; cbn -[fresh]; [|split; [exact Hk|intros a; discriminate]].
  assert (Hf : h !! fresh (dom h') = None).
  { destruct (h !! fresh (dom h')) as [b|] eqn:Hb; [|reflexivity].
    apply Hk in Hb. rewrite fresh_lookup_None in Hb. discriminate. }
  split.
  - intros a b Hab. rewrite lookup_insert_ne; [apply Hk, Hab|]. congruence.
  - intros a [= <-]. exact Hf.
Qed.

Lemma keeps_free h h' p :
  keeps h h' → fresh_for h p → keeps h (ast_free p h').
Proof.
  intros Hk Hf. destruct p as [a|]; [|exact Hk].
  intros a' b Hab. cbn. rewrite lookup_delete_ne; [apply Hk, Hab|].
  intros <-. rewrite (Hf a eq_refl) in Hab. discriminate.
Qed.

Lemma keeps_override h h' ok value old :
  keeps h h' → fresh_for h old →
  keeps h (snd (override_default ok value old h'))
  ∧ fresh_for h (fst (override_default ok value old h')).
Proof.
  intros Hk Hf. unfold override_default.
  destruct value as [s|]; [case_bool_decide|]; try (split; assumption).
  apply keeps_strdup, keeps_free; assumption.
Qed.

(** X15. [google_engine_config_load] only allocates: whatever the file
    holds and whatever the allocator answers, every block that was
    allocated before the call is still there afterwards, and the three
    string pointers it leaves in the global are null or designate
    addresses that were free before.  In particular the strings of an
    earlier load are neither freed nor reachable from the global any
    more. *)
Theorem config_load_never_frees_earlier_blocks :
  ∀ io e h,
    keeps h (snd (snd (google_engine_config_load io e h)))
    ∧ fresh_for h (default_language_code
                     (fst (snd (google_engine_config_load io e h))))
    ∧ fresh_for h (default_service_account_key_path
                     (fst (snd (google_engine_config_load io e h))))
    ∧ fresh_for h (default_model
                     (fst (snd (google_engine_config_load io e h)))).
Proof.
  intros io e h. unfold google_engine_config_load.
  assert (H0 : keeps h h) by (intros a b Hab; exact Hab).
  destruct (keeps_strdup h h (cl_strdup_default_language io) "en-US" H0)
    as [K1 F1].
  destruct (ast_strdup _ "en-US" h) as [lang0 h1]. cbn [fst snd] in K1, F1.
  destruct (keeps_strdup h h1 (cl_strdup_default_model io) "default" K1)
    as [K2 F2].
  destruct (ast_strdup _ "default" h1) as [model0 h2]. cbn [fst snd] in K2, F2.
  destruct (cl_ast_config_load io) as [cfg|]; [|cbn; split; [exact K2|];
    split; [exact F1|]; split; [intros a; discriminate|exact F2]].
  assert (Fnull : fresh_for h None) by (intros a; discriminate).
  destruct (keeps_override h h2 (cl_strdup_key_path io)
              (cfg "general" "service_account_key_path") None K2 Fnull)
    as [K3 F3].
  destruct (override_default _ (cfg "general" "service_account_key_path") None h2)
    as [key1 h3]. cbn [fst snd] in K3, F3.
  destruct (keeps_override h h3 (cl_strdup_language io)
              (cfg "general" "language_code") lang0 K3 F1)
    as [K4 F4].
  destruct (override_default _ (cfg "general" "language_code") lang0 h3)
    as [lang1 h4]. cbn [fst snd] in K4, F4.
  destruct (keeps_override h h4 (cl_strdup_model io)
              (cfg "general" "model") model0 K4 F2)
    as [K5 F5].
  destruct (override_default _ (cfg "general" "model") model0 h4)
    as [model1 h5]. cbn [fst snd] in K5, F5.
  cbn. auto.
Qed.

(** ** load_module and unload_module *)

Lemma override_undo ok value old h :
  ast_free (fst (override_default ok value old h))
           (snd (override_default ok value old h))
  = ast_free old h.
Proof.
  unfold override_default.
  destruct value as [s|]; [case_bool_decide|]; try reflexivity.
  apply strdup_then_free.
Qed.

Lemma config_load_undo io e h :
  let r := snd (google_engine_config_load io e h) in
  ast_free (default_model (fst r))
    (ast_free (default_language_code (fst r))
       (ast_free (default_service_account_key_path (fst r)) (snd r)))
  = h.
Proof.
  unfold google_engine_config_load.
  pose proof (strdup_then_free (cl_strdup_default_language io) "en-US" h) as U1.
  destruct (ast_strdup _ "en-US" h) as [lang0 h1]. cbn [fst snd] in U1.
  pose proof (strdup_then_free (cl_strdup_default_model io) "default" h1) as U2.
  destruct (ast_strdup _ "default" h1) as [model0 h2]. cbn [fst snd] in U2.
  destruct (cl_ast_config_load io) as [cfg|].
  2:{ cbn [fst snd default_model default_language_code
           default_service_account_key_path ast_free].
      rewrite ast_free_comm, U2. exact U1. }
  pose proof (override_undo (cl_strdup_key_path io)
                (cfg "general" "service_account_key_path") None h2) as U3.
  destruct (override_default _ (cfg "general" "service_account_key_path") None h2)
    as [key1 h3]. cbn [fst snd] in U3.
  pose proof (override_undo (cl_strdup_language io)
                (cfg "general" "language_code") lang0 h3) as U4.
  destruct (override_default _ (cfg "general" "language_code") lang0 h3)
    as [lang1 h4]. cbn [fst snd] in U4.
  pose proof (override_undo (cl_strdup_model io)
                (cfg "general" "model") model0 h4) as U5.
  destruct (override_default _ (cfg "general" "model") model0 h4)
    as [model1 h5]. cbn [fst snd] in U5.
  cbn [fst snd default_model default_language_code
       default_service_account_key_path].
  rewrite (ast_free_comm lang1 key1), (ast_free_comm model1 key1).
  rewrite (ast_free_comm model1 lang1), U5.
  rewrite (ast_free_comm lang1 model0), U4.
  rewrite (ast_free_comm model0 lang0), (ast_free_comm key1 lang0).
  rewrite (ast_free_comm key1 model0), U3.
  change (ast_free None h2) with h2. rewrite U2. exact U1.
Qed.

(** X16. Load, then unload.  [load_module] never declines: it fails
    exactly when the host cannot allocate the format capabilities or
    refuses the registration, and in that case (as on success) the
    defaults it loaded stay allocated and the global stays initialized.
    [unload_module] returns 0 whatever the host answers to the
    unregistration, clears [initialized], and frees the three default
    strings, so that the heap is exactly what it was before the load. *)
Theorem load_then_unload_restores_heap :
  ∀ io unregister e h,
    let loaded := load_module io e h in
    let e1 := fst (fst (snd loaded)) in
    let h1 := snd (fst (snd loaded)) in
    let unloaded := unload_module unregister e1 h1 in
    fst loaded ≠ AST_MODULE_LOAD_DECLINE
    ∧ (fst loaded = AST_MODULE_LOAD_SUCCESS
       ↔ ld_format_cap_alloc io = true ∧ ld_speech_register io = 0)
    ∧ initialized e1 = 1
    ∧ (e1, h1) = snd (google_engine_config_load (ld_config io) e h)
    ∧ fst unloaded = 0
    ∧ initialized (fst (fst (snd unloaded))) = 0
    ∧ snd (fst (snd unloaded)) = h
    ∧ snd (snd unloaded) = [HostSpeechUnregister unregister; HostFormatCapDestroy].
Proof.
  intros io unregister e h. cbn zeta.
  pose proof (config_load_undo (ld_config io) e h) as Hundo. cbn zeta in Hundo.
  assert (Hres : fst (google_engine_config_load (ld_config io) e h) = 0
                 ∧ initialized (fst (snd (google_engine_config_load
                                            (ld_config io) e h))) = 1).
  { unfold google_engine_config_load.
    destruct (ast_strdup _ "en-US" h) as [lang0 h1].
    destruct (ast_strdup _ "default" h1) as [model0 h2].
    destruct (cl_ast_config_load (ld_config io)) as [cfg|]; [|split; reflexivity].
    destruct (override_default _ _ None h2) as [key1 h3].
    destruct (override_default _ _ lang0 h3) as [lang1 h4].
    destruct (override_default _ _ model0 h4) as [model1 h5].
    split; reflexivity. }
  unfold load_module.
  destruct (google_engine_config_load (ld_config io) e h) as [res [e1 h1]].
  cbn [fst snd] in Hundo, Hres. destruct Hres as [-> Hinit]. cbn [Z.eqb negb].
  assert (Hunload : ∀ c : list host_call,
            fst (unload_module unregister e1 h1) = 0
            ∧ initialized (fst (fst (snd (unload_module unregister e1 h1)))) = 0
            ∧ snd (fst (snd (unload_module unregister e1 h1))) = h
            ∧ snd (snd (unload_module unregister e1 h1))
              = [HostSpeechUnregister unregister; HostFormatCapDestroy]).
  { intros _. unfold unload_module. cbn [fst snd initialized].
    split; [reflexivity|]. split; [reflexivity|]. split; [|reflexivity].
    exact Hundo. }
  destruct (ld_format_cap_alloc io); cbn [negb].
  - destruct (Z.eqb_spec (ld_speech_register io) 0) as [Hz|Hnz]; cbn [negb fst snd].
    + split; [discriminate|]. split; [tauto|]. split; [exact Hinit|].
      split; [reflexivity|]. apply (Hunload []).
    + split; [discriminate|]. split; [split; [discriminate|tauto]|].
      split; [exact Hinit|]. split; [reflexivity|]. apply (Hunload []).
  - cbn [fst snd]. split; [discriminate|].
    split; [split; [discriminate|intros [? _]; discriminate]|].
    split; [exact Hinit|]. split; [reflexivity|]. apply (Hunload []).
Qed.

(** ** google_recog_create *)

Lemma strdup_from_cases ok h p :
  strdup_from ok h p = (None, h)
  ∨ ∃ s, read_str h p = Some s ∧ strdup_from ok h p = ast_strdup ok s h.
Proof.
  unfold strdup_from. destruct (read_str h p) as [s|]; [right; eauto|left; reflexivity].
Qed.

Lemma strdup_from_undo ok h p :
  ast_free (fst (strdup_from ok h p)) (snd (strdup_from ok h p)) = h.
Proof.
  destruct (strdup_from_cases ok h p) as [-> | (s & _ & ->)];
    [reflexivity|apply strdup_then_free].
Qed.

Lemma strdup_from_reads ok h p :
  (∀ s, ok = true → read_str h p = Some s →
        read_str (snd (strdup_from ok h p)) (fst (strdup_from ok h p)) = Some s)
  ∧ ∀ q t, read_str h q = Some t →
           read_str (snd (strdup_from ok h p)) q = Some t
           ∧ q ≠ fst (strdup_from ok h p).
Proof.
  unfold strdup_from. destruct (read_str h p) as [s|] eqn:Hp.
  - destruct (strdup_reads ok s h) as [Hnew Hkeep]. split; [|exact Hkeep].
    intros s' Hok [= <-]. apply Hnew, Hok.
  - split; [discriminate|]. intros q t Hq. split; [exact Hq|].
    intros ->. cbn in Hq. discriminate.
Qed.

Lemma cxx_new_undo b h : cxx_delete (fst (cxx_new b h)) (snd (cxx_new b h)) = h.
Proof. apply delete_fresh_insert. Qed.

Lemma cxx_new_reads b h :
  snd (cxx_new b h) !! fst (cxx_new b h) = Some b
  ∧ (∀ a c, h !! a = Some c →
            snd (cxx_new b h) !! a = Some c ∧ a ≠ fst (cxx_new b h))
  ∧ ∀ p t, read_str h p = Some t →
           read_str (snd (cxx_new b h)) p = Some t.
Proof.
  cbn -[fresh]. rewrite lookup_insert_eq. split; [reflexivity|].
  assert (Hk : ∀ a c, h !! a = Some c →
             <[fresh (dom h) := b]> h !! a = Some c ∧ a ≠ fresh (dom h)).
  { intros a c Ha.
    assert (Hne : fresh (dom h) ≠ a).
    { intros Heq. pose proof (fresh_lookup_None h) as Hf. congruence. }
    split; [|congruence]. rewrite lookup_insert_ne by exact Hne. exact Ha. }
  split; [exact Hk|].
  intros p t Hp. apply read_str_Some in Hp as (a & -> & Ha).
  cbn -[fresh]. destruct (Hk a _ Ha) as [-> _]. reflexivity.
Qed.

Lemma config_load_returns_zero io e h :
  fst (google_engine_config_load io e h) = 0
  ∧ initialized (fst (snd (google_engine_config_load io e h))) = 1.
Proof.
  unfold google_engine_config_load.
  destruct (ast_strdup _ "en-US" h) as [lang0 h1].
  destruct (ast_strdup _ "default" h1) as [model0 h2].
  destruct (cl_ast_config_load io) as [cfg|]; [|split; reflexivity].
  destruct (override_default _ _ None h2) as [key1 h3].
  destruct (override_default _ _ lang0 h3) as [lang1 h4].
  destruct (override_default _ _ model0 h4) as [model1 h5].
  split; reflexivity.
Qed.

(** The load inside [google_recog_create] never ends the creation. *)
Lemma create_unfold io format e w :
  google_recog_create io format e w
  = let eh := if initialized e =? 0
              then snd (google_engine_config_load (cr_config io) e (heap w))
              else (e, heap w) in
    create_session io format (fst eh) (snd eh) w.
Proof.
  unfold google_recog_create. cbn zeta.
  destruct (initialized e =? 0); [|reflexivity].
  pose proof (config_load_returns_zero (cr_config io) e (heap w)) as [Hres _].
  destruct (google_engine_config_load (cr_config io) e (heap w)) as [res [e1 h0]].
  cbn [fst snd] in *. subst res. reflexivity.
Qed.

(** The four strings of a session, freed in the order of the failure
    paths, give back the heap they were allocated in. *)
Lemma create_strings_undo ok1 ok2 ok3 ok4 (e1 : google_engine_t) h0 :
  let r1 := ast_strdup ok1 "google" h0 in
  let r2 := match default_service_account_key_path e1 with
            | None => (None, snd r1)
            | Some _ => strdup_from ok2 (snd r1) (default_service_account_key_path e1)
            end in
  let r3 := match default_language_code e1 with
            | None => ast_strdup ok3 "en-US" (snd r2)
            | Some _ => strdup_from ok3 (snd r2) (default_language_code e1)
            end in
  let r4 := match default_model e1 with
            | None => ast_strdup ok4 "default" (snd r3)
            | Some _ => strdup_from ok4 (snd r3) (default_model e1)
            end in
  ast_free (fst r4) (ast_free (fst r3) (ast_free (fst r2) (ast_free (fst r1) (snd r4))))
  = h0.
Proof.
  intros r1 r2 r3 r4.
  assert (U1 : ast_free (fst r1) (snd r1) = h0) by apply strdup_then_free.
  assert (U2 : ast_free (fst r2) (snd r2) = snd r1).
  { unfold r2. destruct (default_service_account_key_path e1);
      [apply strdup_from_undo|reflexivity]. }
  assert (U3 : ast_free (fst r3) (snd r3) = snd r2).
  { unfold r3. destruct (default_language_code e1);
      [apply strdup_from_undo|apply strdup_then_free]. }
  assert (U4 : ast_free (fst r4) (snd r4) = snd r3).
  { unfold r4. destruct (default_model e1);
      [apply strdup_from_undo|apply strdup_then_free]. }
  clearbody r1 r2 r3 r4.
  rewrite (ast_free_comm (fst r2) (fst r1)), (ast_free_comm (fst r3) (fst r1)).
  rewrite (ast_free_comm (fst r4) (fst r1)).
  rewrite (ast_free_comm (fst r3) (fst r2)), (ast_free_comm (fst r4) (fst r2)).
  rewrite (ast_free_comm (fst r4) (fst r3)).
  rewrite U4, U3, U2. exact U1.
Qed.

(** X17. A creation that fails leaks nothing.  [google_recog_create]
    returns 0 or -1.  When it returns -1, whichever step failed (the
    struct, the credentials, the channel, the stub or the client
    context), every string and object it had allocated for the session is
    freed again: the heap is the one it started from (the one it was
    given, after the configuration load if the global was not
    initialized), the call log and the state are untouched, and the
    engine data is null unless the struct itself could not be allocated,
    in which case the speech object is untouched. *)
Theorem failed_create_frees_what_it_allocated :
  ∀ io format e w,
    let r := google_recog_create io format e w in
    let h0 := if initialized e =? 0
              then snd (snd (google_engine_config_load (cr_config io) e (heap w)))
              else heap w in
    (fst r = 0 ∨ fst r = -1)
    ∧ (fst r = -1 →
       heap (snd (snd r)) = h0
       ∧ calls (snd (snd r)) = calls w
       ∧ state (speech (snd (snd r))) = state (speech w)
       ∧ (cr_calloc io = true → data (speech (snd (snd r))) = None)
       ∧ (cr_calloc io = false → speech (snd (snd r)) = speech w)).
Proof.
  intros io format e w. cbn zeta. rewrite create_unfold. cbn zeta.
  unfold create_session.
  set (eh := if initialized e =? 0
             then snd (google_engine_config_load (cr_config io) e (heap w))
             else (e, heap w)).
  assert (Hh0 : snd eh = (if initialized e =? 0
                          then snd (snd (google_engine_config_load
                                           (cr_config io) e (heap w)))
                          else heap w)).
  { unfold eh. destruct (initialized e =? 0); reflexivity. }
  rewrite <- Hh0. clear Hh0. clearbody eh. destruct eh as [e1 h0]. cbn [fst snd].
  destruct (cr_calloc io); cbn [negb].
  2:{ cbn. split; [right; reflexivity|]. intros _. repeat split. discriminate. }
  pose proof (create_strings_undo (cr_strdup_name io) (cr_strdup_key_path io)
                (cr_strdup_language io) (cr_strdup_model io) e1 h0) as U.
  cbn zeta in U. revert U.
  destruct (ast_strdup (cr_strdup_name io) "google" h0) as [nm h1]. cbn [fst snd].
  destruct (match default_service_account_key_path e1 with
            | None => (None, h1)
            | Some _ => _ end) as [kp h2]. cbn [fst snd].
  destruct (match default_language_code e1 with
            | None => _
            | Some _ => _ end) as [lang h3]. cbn [fst snd].
  destruct (match default_model e1 with
            | None => _
            | Some _ => _ end) as [mdl h4]. cbn [fst snd].
  intros U. unfold create_fail, create_free_strings.
  destruct (obtain_credentials io _); cbn [negb].
  2:{ cbn. split; [right; reflexivity|]. intros _.
      split; [exact U|]. repeat split. discriminate. }
  destruct (cr_CreateChannel io); cbn [negb].
  2:{ cbn. split; [right; reflexivity|]. intros _.
      split; [exact U|]. repeat split. discriminate. }
  pose proof (cxx_new_undo ChannelObj h4) as Uch. revert Uch.
  destruct (cxx_new ChannelObj h4) as [ch h5]. cbn [fst snd]. intros Uch.
  destruct (cr_NewStub io) as [[]|].
  2:{ cbn. rewrite Uch. split; [right; reflexivity|]. intros _.
      split; [exact U|]. repeat split. discriminate. }
  pose proof (cxx_new_undo StubObj h5) as Usb. revert Usb.
  destruct (cxx_new StubObj h5) as [sb h6]. cbn [fst snd]. intros Usb.
  destruct (cr_new_context io) as [[]|].
  2:{ cbn. unfold cxx_delete in *. rewrite delete_delete, Usb, Uch.
      split; [right; reflexivity|]. intros _.
      split; [exact U|]. repeat split. discriminate. }
  destruct (cxx_new ContextObj h6) as [cx h7]. cbn.
  split; [left; reflexivity|]. discriminate.
Qed.

Lemma failed_create_frees_what_it_allocated_witness :
  fst (google_recog_create
         {| cr_config := no_config; cr_calloc := true; cr_strdup_name := true;
            cr_strdup_key_path := true; cr_strdup_language := true;
            cr_strdup_model := true; cr_key_file := None;
            cr_jwt_credentials := Throws;
            cr_default_credentials := Returns true;
            cr_fallback_credentials := Throws;
            cr_CreateChannel := true; cr_NewStub := Returns tt;
            cr_new_context := Throws |}
         None blank_engine blank_world) = -1
  ∧ heap (snd (snd (google_recog_create
         {| cr_config := no_config; cr_calloc := true; cr_strdup_name := true;
            cr_strdup_key_path := true; cr_strdup_language := true;
            cr_strdup_model := true; cr_key_file := None;
            cr_jwt_credentials := Throws;
            cr_default_credentials := Returns true;
            cr_fallback_credentials := Throws;
            cr_CreateChannel := true; cr_NewStub := Returns tt;
            cr_new_context := Throws |}
         None blank_engine blank_world)))
    = snd (snd (google_engine_config_load no_config blank_engine ∅)).
Proof.
  split; [vm_compute; reflexivity|].
  apply (proj2 (failed_create_frees_what_it_allocated
                  {| cr_config := no_config; cr_calloc := true;
                     cr_strdup_name := true; cr_strdup_key_path := true;
                     cr_strdup_language := true; cr_strdup_model := true;
                     cr_key_file := None; cr_jwt_credentials := Throws;
                     cr_default_credentials := Returns true;
                     cr_fallback_credentials := Throws;
                     cr_CreateChannel := true; cr_NewStub := Returns tt;
                     cr_new_context := Throws |}
                  None blank_engine blank_world)).
  vm_compute. reflexivity.
Defined.

(** X18. What a successful creation leaves.  The session has no stream
    and an empty result slot; its stub, context and channel pointers
    designate three distinct live objects of the right kind; the state
    and the call log are untouched; the punctuation flag is the one of
    the global, which is initialized afterwards.  The sample rate is the
    one of the format when there is a format and its rate is positive,
    and 16000 otherwise, so it is always positive. *)
Theorem create_success_shape :
  ∀ io format e w e' w',
    google_recog_create io format e w = (0, (e', w')) →
    ∃ g sb cx ch,
      data (speech w') = Some g
      ∧ stream g = None ∧ last_result g = None
      ∧ speech_stub g = Some sb ∧ context g = Some cx ∧ channel_ptr g = Some ch
      ∧ heap w' !! sb = Some StubObj
      ∧ heap w' !! cx = Some ContextObj
      ∧ heap w' !! ch = Some ChannelObj
      ∧ sample_rate_hertz g
        = match format with
          | None => 16000
          | Some rate => if 0 <? rate then rate else 16000
          end
      ∧ 0 < sample_rate_hertz g
      ∧ enable_automatic_punctuation g = default_enable_automatic_punctuation e'
      ∧ initialized e' ≠ 0
      ∧ state (speech w') = state (speech w)
      ∧ calls w' = calls w.
Proof.
  intros io format e w e' w'. rewrite create_unfold. cbn zeta.
  unfold create_session.
  set (eh := if initialized e =? 0
             then snd (google_engine_config_load (cr_config io) e (heap w))
             else (e, heap w)).
  assert (Hinit : initialized (fst eh) ≠ 0).
  { unfold eh. destruct (Z.eqb_spec (initialized e) 0) as [_|Hne]; [|exact Hne].
    rewrite (proj2 (config_load_returns_zero (cr_config io) e (heap w))). lia. }
  clearbody eh. destruct eh as [e1 h0]. cbn [fst snd] in *.
  destruct (cr_calloc io); cbn [negb]; [|discriminate].
  destruct (ast_strdup (cr_strdup_name io) "google" h0) as [nm h1].
  destruct (match default_service_account_key_path e1 with
            | None => (None, h1)
            | Some _ => _ end) as [kp h2].
  destruct (match default_language_code e1 with
            | None => _
            | Some _ => _ end) as [lang h3].
  destruct (match default_model e1 with
            | None => _
            | Some _ => _ end) as [mdl h4].
  unfold create_fail.
  destruct (obtain_credentials io _); cbn [negb]; [|discriminate].
  destruct (cr_CreateChannel io); cbn [negb]; [|discriminate].
  destruct (cxx_new_reads ChannelObj h4) as (Hch & _ & _).
  destruct (cxx_new ChannelObj h4) as [ch h5]. cbn [fst snd] in Hch.
  destruct (cr_NewStub io) as [[]|]; [|discriminate].
  destruct (cxx_new_reads StubObj h5) as (Hsb & Hk5 & _).
  destruct (cxx_new StubObj h5) as [sb h6]. cbn [fst snd] in Hsb, Hk5.
  destruct (Hk5 _ _ Hch) as [Hch6 _].
  destruct (cr_new_context io) as [[]|]; [|discriminate].
  destruct (cxx_new_reads ContextObj h6) as (Hcx & Hk6 & _).
  destruct (cxx_new ContextObj h6) as [cx h7]. cbn [fst snd] in Hcx, Hk6.
  destruct (Hk6 _ _ Hch6) as [Hch7 _]. destruct (Hk6 _ _ Hsb) as [Hsb7 _].
  cbn. intros [= <- <-]. cbn.
  eexists _, sb, cx, ch. split; [reflexivity|]. cbn.
  do 5 (split; [reflexivity|]).
  split; [exact Hsb7|]. split; [exact Hcx|]. split; [exact Hch7|].
  assert (Hrate : (if (match format with
                       | None => 16000
                       | Some r => if r =? 0 then 16000 else r
                       end) <=? 0
                   then 16000
                   else match format with
                        | None => 16000
                        | Some r => if r =? 0 then 16000 else r
                        end)
                  = match format with
                    | None => 16000
                    | Some rate => if 0 <? rate then rate else 16000
                    end).
  { destruct format as [r|]; [|reflexivity].
    destruct (Z.eqb_spec r 0) as [->|Hr0]; [reflexivity|].
    destruct (Z.leb_spec r 0), (Z.ltb_spec 0 r); try reflexivity; lia. }
  split; [exact Hrate|]. rewrite Hrate.
  split; [destruct format as [r|]; [destruct (Z.ltb_spec 0 r)|]; lia|].
  split; [reflexivity|]. split; [exact Hinit|]. split; reflexivity.
Qed.

Lemma create_success_shape_witness :
  ∃ e' w' g,
    google_recog_create create_ok (Some (-8000)) blank_engine blank_world
    = (0, (e', w'))
    ∧ data (speech w') = Some g
    ∧ sample_rate_hertz g = 16000
    ∧ stream g = None.
Proof.
  set (r := google_recog_create create_ok (Some (-8000)) blank_engine blank_world).
  assert (Hr : r = (0, (fst (snd r), snd (snd r)))) by (vm_compute; reflexivity).
  destruct (create_success_shape create_ok (Some (-8000)) blank_engine blank_world
              _ _ Hr)
    as (g & sb & cx & ch & Hd & Hs & _ & _ & _ & _ & _ & _ & _ & Hrate & _).
  exists (fst (snd r)), (snd (snd r)), g.
  split; [exact Hr|]. split; [exact Hd|]. split; [exact Hrate|exact Hs].
Defined.

(** What a successful creation from an initialized global with live
    defaults gives; the facts shared by the theorems below. *)
Lemma create_success_facts :
  ∀ io format e w e' w' l m,
    initialized e ≠ 0 →
    read_str (heap w) (default_language_code e) = Some l →
    read_str (heap w) (default_model e) = Some m →
    (∀ a, default_service_account_key_path e = Some a →
          is_Some (read_str (heap w) (Some a))) →
    cr_strdup_language io = true →
    cr_strdup_model io = true →
    google_recog_create io format e w = (0, (e', w')) →
    e' = e
    ∧ ∃ g,
        data (speech w') = Some g
        ∧ (stream g = None
           ∧ is_Some (speech_stub g) ∧ is_Some (context g)
           ∧ sample_rate_hertz g
             = (let rate0 := match format with
                             | None => 16000
                             | Some r => if r =? 0 then 16000 else r
                             end in
                if rate0 <=? 0 then 16000 else rate0)
           ∧ enable_automatic_punctuation g
             = default_enable_automatic_punctuation e
           ∧ calls w' = calls w)
        ∧ read_str (heap w') (language_code g) = Some l
        ∧ read_str (heap w') (model g) = Some m
        ∧ language_code g ≠ default_language_code e
        ∧ model g ≠ default_model e
        ∧ ∀ unregister,
            let h'' := snd (fst (snd (unload_module unregister e (heap w')))) in
            read_str h'' (language_code g) = Some l
            ∧ read_str h'' (model g) = Some m
            ∧ read_str h'' (default_language_code e) = None
            ∧ read_str h'' (default_model e) = None.
Proof.
  intros io format e w e' w' l m Hinit Hl0 Hm0 Hkey Hokl Hokm.
  unfold google_recog_create.
  destruct (Z.eqb_spec (initialized e) 0) as [Hz|_]; [contradiction|].
  unfold create_session.
  destruct (cr_calloc io); cbn [negb]; [|discriminate].
  rewrite Hokl, Hokm.
  (* the name *)
  destruct (strdup_reads (cr_strdup_name io) "google" (heap w)) as [_ K1].
  destruct (ast_strdup (cr_strdup_name io) "google" (heap w)) as [nm h1].
  cbn [fst snd] in K1.
  destruct (K1 _ _ Hl0) as [Hl1 _]. destruct (K1 _ _ Hm0) as [Hm1 _].
  assert (Hkey1 : ∀ a, default_service_account_key_path e = Some a →
            is_Some (read_str h1 (Some a))).
  { intros a Ha. destruct (Hkey a Ha) as [k Hk]. destruct (K1 _ _ Hk) as [Hk1 _]. eauto. }
  (* the key path *)
  assert (K2 : ∃ kp h2,
            match default_service_account_key_path e with
            | None => (None, h1)
            | Some _ => strdup_from (cr_strdup_key_path io) h1
                          (default_service_account_key_path e)
            end = (kp, h2)
            ∧ ∀ q t, read_str h1 q = Some t → read_str h2 q = Some t).
  { destruct (default_service_account_key_path e) as [ka|].
    - destruct (strdup_from_reads (cr_strdup_key_path io) h1 (Some ka)) as [_ K].
      destruct (strdup_from _ h1 (Some ka)) as [kp h2]. cbn [fst snd] in K.
      exists kp, h2. split; [reflexivity|]. intros q t Hq. apply (K q t Hq).
    - exists None, h1. split; [reflexivity|]. auto. }
  destruct K2 as (kp & h2 & -> & K2).
  pose proof (K2 _ _ Hl1) as Hl2. pose proof (K2 _ _ Hm1) as Hm2.
  assert (Hkey2 : ∀ a, default_service_account_key_path e = Some a →
            is_Some (read_str h2 (Some a))).
  { intros a Ha. destruct (Hkey1 a Ha) as [k Hk]. eauto. }
  (* the language code *)
  assert (Hle : ∃ la, default_language_code e = Some la).
  { destruct (default_language_code e) as [la|]; [eauto|discriminate]. }
  destruct Hle as [la Hla]. rewrite Hla in *.
  destruct (strdup_from_reads true h2 (Some la)) as [N3 K3].
  destruct (strdup_from true h2 (Some la)) as [lang h3]. cbn [fst snd] in N3, K3.
  specialize (N3 l eq_refl Hl2).
  destruct (K3 _ _ Hl2) as [Hl3 Dll]. destruct (K3 _ _ Hm2) as [Hm3 Dml].
  assert (Hkey3 : ∀ a, default_service_account_key_path e = Some a →
            is_Some (read_str h3 (Some a)) ∧ Some a ≠ lang).
  { intros a Ha. destruct (Hkey2 a Ha) as [k Hk].
    destruct (K3 _ _ Hk) as [Hk3 Dk]. eauto. }
  (* the model *)
  assert (Hme : ∃ ma, default_model e = Some ma).
  { destruct (default_model e) as [ma|]; [eauto|discriminate]. }
  destruct Hme as [ma Hma]. rewrite Hma in *.
  destruct (strdup_from_reads true h3 (Some ma)) as [N4 K4].
  destruct (strdup_from true h3 (Some ma)) as [mdl h4]. cbn [fst snd] in N4, K4.
  specialize (N4 m eq_refl Hm3).
  destruct (K4 _ _ Hl3) as [Hl4 Dlm]. destruct (K4 _ _ Hm3) as [Hm4 Dmm].
  destruct (K4 _ _ N3) as [N34 _].
  assert (Hkey4 : ∀ a, default_service_account_key_path e = Some a →
            Some a ≠ lang ∧ Some a ≠ mdl).
  { intros a Ha. destruct (Hkey3 a Ha) as [[k Hk] Dk].
    destruct (K4 _ _ Hk) as [_ Dk4]. auto. }
  unfold create_fail.
  destruct (obtain_credentials io _); cbn [negb]; [|discriminate].
  destruct (cr_CreateChannel io); cbn [negb]; [|discriminate].
  destruct (cxx_new_reads ChannelObj h4) as (_ & _ & K5).
  destruct (cxx_new ChannelObj h4) as [ch h5]. cbn [fst snd] in K5.
  destruct (cr_NewStub io) as [[]|]; [|discriminate].
  destruct (cxx_new_reads StubObj h5) as (_ & _ & K6).
  destruct (cxx_new StubObj h5) as [sb h6]. cbn [fst snd] in K6.
  destruct (cr_new_context io) as [[]|]; [|discriminate].
  destruct (cxx_new_reads ContextObj h6) as (_ & _ & K7).
  destruct (cxx_new ContextObj h6) as [cx h7]. cbn [fst snd] in K7.
  cbn. intros [= <- <-]. split; [reflexivity|].
  eexists. split; [reflexivity|].
  split; [cbn; repeat split; eauto|].
  cbn [heap language_code model set_context set_speech_stub set_channel_ptr].
  assert (HL : read_str h7 lang = Some l) by (apply K7, K6, K5, N34).
  assert (HM : read_str h7 mdl = Some m) by (apply K7, K6, K5, N4).
  split; [exact HL|]. split; [exact HM|].
  split; [congruence|]. split; [congruence|].
  intros unregister. unfold unload_module. cbn [fst snd]. rewrite Hla, Hma.
  assert (Dkl : lang ≠ default_service_account_key_path e).
  { destruct (default_service_account_key_path e) as [ka|] eqn:Hka.
    - destruct (Hkey4 ka eq_refl). congruence.
    - intros ->. discriminate. }
  assert (Dkm : mdl ≠ default_service_account_key_path e).
  { destruct (default_service_account_key_path e) as [ka|] eqn:Hka.
    - destruct (Hkey4 ka eq_refl). congruence.
    - intros ->. discriminate. }
  split; [|split; [|split]].
  - repeat apply free_keeps_read; congruence.
  - repeat apply free_keeps_read; congruence.
  - cbn. rewrite lookup_delete. case_decide; [reflexivity|].
    rewrite lookup_delete_eq. reflexivity.
  - cbn. rewrite lookup_delete_eq. reflexivity.
Qed.


(** X19. A session takes copies, not references.  With an initialized
    global whose defaults are live strings, a creation that succeeds (and
    gets memory for the two copies) leaves the global as it is and gives
    the session its own language and model strings: they read what the
    defaults read, through pointers that differ from those of the global.
    So when [unload_module] later frees the strings of the global, the
    session still reads its language and its model. *)
Theorem create_copies_the_defaults :
  ∀ io format e w e' w' l m,
    initialized e ≠ 0 →
    read_str (heap w) (default_language_code e) = Some l →
    read_str (heap w) (default_model e) = Some m →
    (∀ a, default_service_account_key_path e = Some a →
          is_Some (read_str (heap w) (Some a))) →
    cr_strdup_language io = true →
    cr_strdup_model io = true →
    google_recog_create io format e w = (0, (e', w')) →
    e' = e
    ∧ ∃ g,
        data (speech w') = Some g
        ∧ read_str (heap w') (language_code g) = Some l
        ∧ read_str (heap w') (model g) = Some m
        ∧ language_code g ≠ default_language_code e
        ∧ model g ≠ default_model e
        ∧ ∀ unregister,
            let h'' := snd (fst (snd (unload_module unregister e (heap w')))) in
            read_str h'' (language_code g) = Some l
            ∧ read_str h'' (model g) = Some m
            ∧ read_str h'' (default_language_code e) = None
            ∧ read_str h'' (default_model e) = None.
Proof.
  intros io format e w e' w' l m Hinit Hl0 Hm0 Hkey Hokl Hokm Hcreate.
  destruct (create_success_facts io format e w e' w' l m
              Hinit Hl0 Hm0 Hkey Hokl Hokm Hcreate)
    as (He & g & Hd & _ & Hrest).
  split; [exact He|]. exists g. split; [exact Hd|exact Hrest].
Qed.

Lemma create_copies_the_defaults_witness :
  ∃ e' w' g,
    google_recog_create create_ok None loaded_engine loaded_world = (0, (e', w'))
    ∧ data (speech w') = Some g
    ∧ read_str (heap w') (language_code g) = Some "es-ES"
    ∧ read_str (heap w') (model g) = Some "latest_long"
    ∧ read_str (snd (fst (snd (unload_module 0 loaded_engine (heap w')))))
               (language_code g) = Some "es-ES".
Proof.
  set (r := google_recog_create create_ok None loaded_engine loaded_world).
  assert (Hr : r = (0, (fst (snd r), snd (snd r)))) by (vm_compute; reflexivity).
  destruct (create_copies_the_defaults create_ok None loaded_engine loaded_world
              _ _ "es-ES" "latest_long"
              ltac:(vm_compute; discriminate)
              ltac:(vm_compute; reflexivity)
              ltac:(vm_compute; reflexivity)
              ltac:(intros a Ha; vm_compute in Ha; injection Ha as <-;
                    eexists; vm_compute; reflexivity)
              eq_refl eq_refl Hr)
    as (_ & g & Hd & Hl & Hm & _ & _ & Hun).
  exists (fst (snd r)), (snd (snd r)), g.
  split; [exact Hr|]. split; [exact Hd|]. split; [exact Hl|].
  split; [exact Hm|]. apply (Hun 0).
Defined.

(** The strings copied for a session keep what could be read before. *)
Lemma copy_default_keeps ok h p (dflt : string) :
  ∀ q t, read_str h q = Some t →
         read_str (snd (match p with
                        | None => ast_strdup ok dflt h
                        | Some _ => strdup_from ok h p
                        end)) q = Some t.
Proof.
  intros q t Hq. destruct p as [a|].
  - apply (proj2 (strdup_from_reads ok h (Some a)) q t Hq).
  - apply (proj2 (strdup_reads ok dflt h) q t Hq).
Qed.

(** With a configured key path that could be copied, how the creation
    ends depends on the credentials, the channel, the stub and the
    context only. *)
Lemma create_with_key_path io format e w k :
  initialized e ≠ 0 →
  read_str (heap w) (default_service_account_key_path e) = Some k →
  k ≠ EmptyString →
  cr_calloc io = true →
  cr_strdup_key_path io = true →
  fst (google_recog_create io format e w)
  = if negb (obtain_credentials io true) then -1
    else if negb (cr_CreateChannel io) then -1
    else match cr_NewStub io with
         | Throws => -1
         | Returns _ =>
           match cr_new_context io with
           | Throws => -1
           | Returns _ => 0
           end
         end.
Proof.
  intros Hinit Hk Hne Hcalloc Hdup. unfold google_recog_create.
  destruct (Z.eqb_spec (initialized e) 0) as [Hz|_]; [contradiction|].
  unfold create_session.
  rewrite Hcalloc, Hdup. cbn [negb].
  destruct (strdup_reads (cr_strdup_name io) "google" (heap w)) as [_ K1].
  destruct (ast_strdup (cr_strdup_name io) "google" (heap w)) as [nm h1].
  cbn [fst snd] in K1. destruct (K1 _ _ Hk) as [Hk1 _].
  assert (Hka : ∃ ka, default_service_account_key_path e = Some ka).
  { destruct (default_service_account_key_path e); [eauto|discriminate]. }
  destruct Hka as [ka Hka]. rewrite Hka in *.
  destruct (strdup_from_reads true h1 (Some ka)) as [N2 _].
  destruct (strdup_from true h1 (Some ka)) as [kp h2]. cbn [fst snd] in N2.
  specialize (N2 k eq_refl Hk1).
  pose proof (copy_default_keeps (cr_strdup_language io) h2
                (default_language_code e) "en-US" kp k N2) as N3.
  destruct (match default_language_code e with
            | None => _
            | Some _ => _ end) as [lang h3]. cbn [snd] in N3.
  pose proof (copy_default_keeps (cr_strdup_model io) h3
                (default_model e) "default" kp k N3) as N4.
  destruct (match default_model e with
            | None => _
            | Some _ => _ end) as [mdl h4]. cbn [snd] in N4.
  rewrite (strlen_zero_of_text h4 kp k N4 Hne). cbn [negb].
  unfold create_fail.
  destruct (obtain_credentials io true); cbn [negb]; [|reflexivity].
  destruct (cr_CreateChannel io); cbn [negb]; [|reflexivity].
  destruct (cxx_new ChannelObj h4) as [ch h5].
  destruct (cr_NewStub io) as [[]|]; [|reflexivity].
  destruct (cxx_new StubObj h5) as [sb h6].
  destruct (cr_new_context io) as [[]|]; [|reflexivity].
  destruct (cxx_new ContextObj h6) as [cx h7]. reflexivity.
Qed.

(** X20. Credentials with a configured key path.  When the global holds
    a non-empty key path (and the session could copy it):
    - a key file with contents whose credential call returns a null
      credential makes the creation fail, whatever the default
      credentials would have given: only an exception leads to the
      fallback;
    - a key file with contents whose credential call throws is replaced
      by the fallback call for the default credentials;
    - a key file that cannot be opened or is empty is replaced by the
      default credentials.
    In the last two cases the creation succeeds when that credential is
    not null and the channel, the stub and the context are obtained. *)
Theorem credentials_with_key_path :
  ∀ io format e w k,
    initialized e ≠ 0 →
    read_str (heap w) (default_service_account_key_path e) = Some k →
    k ≠ EmptyString →
    cr_calloc io = true →
    cr_strdup_key_path io = true →
    (read_key_file (cr_key_file io) ≠ EmptyString →
     cr_jwt_credentials io = Returns false →
     fst (google_recog_create io format e w) = -1)
    ∧ (cr_CreateChannel io = true →
       cr_NewStub io = Returns tt →
       cr_new_context io = Returns tt →
       (read_key_file (cr_key_file io) ≠ EmptyString →
        cr_jwt_credentials io = Throws →
        cr_fallback_credentials io = Returns true →
        fst (google_recog_create io format e w) = 0)
       ∧ (read_key_file (cr_key_file io) = EmptyString →
          cr_default_credentials io = Returns true →
          fst (google_recog_create io format e w) = 0)).
Proof.
  intros io format e w k Hinit Hk Hne Hcalloc Hdup.
  rewrite (create_with_key_path io format e w k Hinit Hk Hne Hcalloc Hdup).
  unfold obtain_credentials. split.
  - intros Hfile Hjwt. rewrite bool_decide_eq_false_2 by exact Hfile.
    rewrite Hjwt. reflexivity.
  - intros -> -> ->. split.
    + intros Hfile Hjwt Hfb. rewrite bool_decide_eq_false_2 by exact Hfile.
      rewrite Hjwt, Hfb. reflexivity.
    + intros Hfile Hdef. rewrite bool_decide_eq_true_2 by exact Hfile.
      rewrite Hdef. reflexivity.
Qed.

Lemma credentials_with_key_path_witness :
  fst (google_recog_create
         {| cr_config := no_config; cr_calloc := true; cr_strdup_name := true;
            cr_strdup_key_path := true; cr_strdup_language := true;
            cr_strdup_model := true; cr_key_file := Some "{}";
            cr_jwt_credentials := Returns false;
            cr_default_credentials := Returns true;
            cr_fallback_credentials := Returns true;
            cr_CreateChannel := true; cr_NewStub := Returns tt;
            cr_new_context := Returns tt |}
         None loaded_engine loaded_world) = -1
  ∧ fst (google_recog_create
         {| cr_config := no_config; cr_calloc := true; cr_strdup_name := true;
            cr_strdup_key_path := true; cr_strdup_language := true;
            cr_strdup_model := true; cr_key_file := Some "{}";
            cr_jwt_credentials := Throws;
            cr_default_credentials := Returns true;
            cr_fallback_credentials := Returns true;
            cr_CreateChannel := true; cr_NewStub := Returns tt;
            cr_new_context := Returns tt |}
         None loaded_engine loaded_world) = 0.
Proof.
  split.
  - apply (proj1 (credentials_with_key_path
                    {| cr_config := no_config; cr_calloc := true;
                       cr_strdup_name := true; cr_strdup_key_path := true;
                       cr_strdup_language := true; cr_strdup_model := true;
                       cr_key_file := Some "{}";
                       cr_jwt_credentials := Returns false;
                       cr_default_credentials := Returns true;
                       cr_fallback_credentials := Returns true;
                       cr_CreateChannel := true; cr_NewStub := Returns tt;
                       cr_new_context := Returns tt |}
                    None loaded_engine loaded_world "/etc/key.json"
                    ltac:(vm_compute; discriminate)
                    ltac:(vm_compute; reflexivity)
                    ltac:(discriminate) eq_refl eq_refl));
      [discriminate|reflexivity].
  - apply (proj1 (proj2 (credentials_with_key_path
                    {| cr_config := no_config; cr_calloc := true;
                       cr_strdup_name := true; cr_strdup_key_path := true;
                       cr_strdup_language := true; cr_strdup_model := true;
                       cr_key_file := Some "{}";
                       cr_jwt_credentials := Throws;
                       cr_default_credentials := Returns true;
                       cr_fallback_credentials := Returns true;
                       cr_CreateChannel := true; cr_NewStub := Returns tt;
                       cr_new_context := Returns tt |}
                    None loaded_engine loaded_world "/etc/key.json"
                    ltac:(vm_compute; discriminate)
                    ltac:(vm_compute; reflexivity)
                    ltac:(discriminate) eq_refl eq_refl)
             eq_refl eq_refl eq_refl));
      [cbn; discriminate|reflexivity|reflexivity].
Defined.

(** ** From the configuration to the handshake *)

(** A start that goes through, on a session without a stream. *)
Lemma start_succeeds io w g lang :
  data (speech w) = Some g →
  is_Some (speech_stub g) → is_Some (context g) →
  stream g = None →
  read_str (heap w) (language_code g) = Some lang →
  st_StreamingRecognize io = Returns tt →
  st_Write io = Returns true →
  ∃ a,
    heap w !! a = None
    ∧ google_recog_start io w
      = (0, {| heap := <[a := StreamObj]> (heap w);
               speech := ast_speech_change_state
                           (set_data (speech w) (Some (set_stream g (Some a))))
                           AST_SPEECH_STATE_READY;
               calls := calls w
                        ++ [CallStreamingRecognize a;
                            CallWrite a
                              (handshake g lang
                                 (handshake_model (heap w) (model g)))
                              true] |}).
Proof.
  intros Hd [sb Hsb] [cx Hcx] Hs Hlang Hopen Hwrite.
  assert (Hv : stream_valid (heap w) g) by (intros a Ha; congruence).
  pose proof (read_str_start_heap (heap w) g) as Hread.
  unfold start_heap in Hread. rewrite Hs in Hread.
  exists (fresh (dom (heap w))). split; [apply fresh_lookup_None|].
  unfold google_recog_start, cxx_new. rewrite Hd, Hsb, Hcx, Hs, Hopen.
  cbn -[fresh]. rewrite (Hread _ Hv), Hlang, Hwrite.
  unfold handshake_model. rewrite (Hread (model g) Hv).
  rewrite <- app_assoc. reflexivity.
Qed.

(** X21. From the configuration to the wire.  A session created from an
    initialized global with live defaults, and then started on a
    transport that opens the stream and accepts the first frame, gets
    state READY, and what it sends first on the new stream is one
    configuration frame that carries the language the global read, the
    model the global read unless that is empty or "default", the
    punctuation flag of the global, LINEAR16 and the sample rate derived
    from the format (16000 without a format or with a rate that is not
    positive). *)
Theorem created_session_sends_the_configured_handshake :
  ∀ io format e w e' w' l m sio,
    initialized e ≠ 0 →
    read_str (heap w) (default_language_code e) = Some l →
    read_str (heap w) (default_model e) = Some m →
    (∀ a, default_service_account_key_path e = Some a →
          is_Some (read_str (heap w) (Some a))) →
    cr_strdup_language io = true →
    cr_strdup_model io = true →
    google_recog_create io format e w = (0, (e', w')) →
    st_StreamingRecognize sio = Returns tt →
    st_Write sio = Returns true →
    ∃ a w2,
      google_recog_start sio w' = (0, w2)
      ∧ state (speech w2) = AST_SPEECH_STATE_READY
      ∧ streaming_on w2 a
      ∧ calls w2
        = calls w
          ++ [ CallStreamingRecognize a;
               CallWrite a
                 (streaming_config
                    {| config :=
                         {| cfg_encoding := LINEAR16;
                            cfg_sample_rate_hertz :=
                              match format with
                              | None => 16000
                              | Some rate => if 0 <? rate then rate else 16000
                              end;
                            cfg_language_code := l;
                            cfg_model :=
                              if bool_decide (m = EmptyString) then None
                              else if bool_decide (m = "default") then None
                              else Some m;
                            cfg_enable_automatic_punctuation :=
                              default_enable_automatic_punctuation e |};
                       interim_results := true |})
                 true ].
Proof.
  intros io format e w e' w' l m sio Hinit Hl0 Hm0 Hkey Hokl Hokm Hcreate
    Hopen Hwrite.
  destruct (create_success_facts io format e w e' w' l m
              Hinit Hl0 Hm0 Hkey Hokl Hokm Hcreate)
    as (_ & g & Hd & (Hs & Hsb & Hcx & Hrate & Hpunct & Hcalls) & Hl & Hm & _).
  destruct (start_succeeds sio w' g l Hd Hsb Hcx Hs Hl Hopen Hwrite)
    as (a & _ & Hstart).
  exists a. eexists. split; [exact Hstart|]. cbn.
  split; [reflexivity|]. split; [eexists; split; reflexivity|].
  rewrite Hcalls. f_equal. f_equal. f_equal.
  unfold handshake, handshake_model, default_model_sentinel.
  rewrite Hm, Hrate, Hpunct. cbn zeta. f_equal. f_equal.
  destruct format as [r|]; [|reflexivity].
  destruct (Z.eqb_spec r 0) as [->|Hr0]; [reflexivity|].
  destruct (Z.leb_spec r 0), (Z.ltb_spec 0 r); try reflexivity; lia.
Qed.

Lemma created_session_sends_the_configured_handshake_witness :
  ∃ a w2,
    google_recog_start start_ok
      (snd (snd (google_recog_create create_ok (Some 8000)
                   loaded_engine loaded_world)))
    = (0, w2)
    ∧ calls w2
      = [ CallStreamingRecognize a;
          CallWrite a
            (streaming_config
               {| config :=
                    {| cfg_encoding := LINEAR16;
                       cfg_sample_rate_hertz := 8000;
                       cfg_language_code := "es-ES";
                       cfg_model := Some "latest_long";
                       cfg_enable_automatic_punctuation := true |};
                  interim_results := true |})
            true ].
Proof.
  set (r := google_recog_create create_ok (Some 8000) loaded_engine loaded_world).
  assert (Hr : r = (0, (fst (snd r), snd (snd r)))) by (vm_compute; reflexivity).
  destruct (created_session_sends_the_configured_handshake
              create_ok (Some 8000) loaded_engine loaded_world
              _ _ "es-ES" "latest_long" start_ok
              ltac:(vm_compute; discriminate)
              ltac:(vm_compute; reflexivity)
              ltac:(vm_compute; reflexivity)
              ltac:(intros a Ha; vm_compute in Ha; injection Ha as <-;
                    eexists; vm_compute; reflexivity)
              eq_refl eq_refl Hr eq_refl eq_refl)
    as (a & w2 & Hstart & _ & _ & Hcalls).
  exists a, w2. split; [exact Hstart|exact Hcalls].
Defined.

(** ** Orderly shutdown *)


